(** * Ghost Aweborne: the persistent vector memory store of [cli.py]

    A shallow embedding of the index helpers and core utilities of
    [src/ghost_aweborne/cli.py] ([_load_texts], [_rebuild_index],
    [_load_or_build_index], [retrieve_memories], [maybe_append_soul]) and
    of its REPL ([ollama_generate], [persona_header], [main]), followed by
    their properties.

    Conventions of the embedding.
    - A Python [str] is a Rocq [string], one [ascii] per character.
    - A Python exception is a constructor of [exn]; a call that may raise
      returns a [result].  Module-level state (the three files, the globals
      [index] and [memories]) lives in a record [World] that every function
      threads explicitly, so the state left behind by a call that raises is
      visible.
    - The external collaborators are not code of this repository.  The JSON
      decoder ([json.loads]) and the sentence embedder ([embedder.encode])
      are parameters of the development; the FAISS flat inner-product index
      is modelled by its documented behaviour (module [faiss]).
    - The [print] calls of the index helpers are not modelled; what
      [main] prints is (module [Repl]). *)

From Stdlib Require Import List String Ascii Bool Arith ZArith QArith Lia.
From Stdlib Require Import DecimalString Permutation.
Import ListNotations.
Local Close Scope Q_scope.
Local Open Scope string_scope.
Local Open Scope list_scope.
Local Open Scope nat_scope.

Set Implicit Arguments.

(* ===================================================================== *)
(** ** Python values, exceptions *)
(* ===================================================================== *)

(** The exceptions that the modelled code can meet. *)
Inductive exn : Type :=
| JSONDecodeError   (* json.loads on text that is not JSON *)
| AttributeError    (* .get on a value that is not a dict *)
| TypeError         (* len() of a value without a length *)
| IndexError        (* list index out of range *)
| AssertionError    (* FAISS wrapper: dimension or k check *)
| OSError           (* open() on a file that cannot be opened *)
| RuntimeError      (* faiss.read_index / write_index failure *)
| EmbedError.       (* any failure of the embedding provider *)

Inductive result (A : Type) : Type :=
| Ok (a : A)
| Raise (e : exn).

Arguments Ok {A} a.
Arguments Raise {A} e.

(** What [json.loads] produces.  An object keeps its members in source
    order; Python builds a dict from them, so a later duplicate key
    overrides an earlier one (see [dict_get], [dict_len]).  A number keeps
    its lexeme: no modelled operation computes with it. *)
#[warnings="-register-all"]
Inductive json : Type :=
| JNull
| JBool (b : bool)
| JNum (lexeme : string)
| JStr (s : string)
| JArr (items : list json)
| JObj (members : list (string * json)).

(** The elements of [texts] and [memories]: whatever
    [json.loads(line).get] returned for the key [text], or a raw line. *)
Definition pyval := json.

(* ===================================================================== *)
(** ** Strings: [str.strip], [json.dumps] *)
(* ===================================================================== *)

Module PyStr.

(** [str.isspace] on one character (code points below 256). *)
Definition isspace (c : ascii) : bool :=
  let n := nat_of_ascii c in
  ((9 <=? n)%nat && (n <=? 13)%nat) || ((28 <=? n)%nat && (n <=? 32)%nat)
  || (n =? 133)%nat || (n =? 160)%nat.

Fixpoint lstrip_chars (l : list ascii) : list ascii :=
  match l with
  | [] => []
  | c :: r => if isspace c then lstrip_chars r else l
  end.

Definition strip_chars (l : list ascii) : list ascii :=
  rev (lstrip_chars (rev (lstrip_chars l))).

(** [s.strip()] *)
Definition strip (s : string) : string :=
  string_of_list_ascii (strip_chars (list_ascii_of_string s)).

(** [not line] for a string: true for the empty string. *)
Definition is_empty (s : string) : bool :=
  match s with EmptyString => true | _ => false end.

Definition dquote : ascii := ascii_of_nat 34.
Definition backslash : ascii := ascii_of_nat 92.

Definition hex_digit (n : nat) : ascii :=
  nth n (list_ascii_of_string "0123456789abcdef") "0"%char.

(** One character under [json.dumps(..., ensure_ascii=False)]: the quote,
    the backslash and the control characters are escaped, everything else
    is copied. *)
Definition escape_char (c : ascii) : string :=
  let n := nat_of_ascii c in
  if (n =? 34)%nat then String backslash (String dquote EmptyString)
  else if (n =? 92)%nat then String backslash (String backslash EmptyString)
  else if (n =? 10)%nat then "\n"
  else if (n =? 13)%nat then "\r"
  else if (n =? 9)%nat then "\t"
  else if (n =? 8)%nat then "\b"
  else if (n =? 12)%nat then "\f"
  else if (n <? 32)%nat then
    ("\u00" ++ String (hex_digit (n / 16))
                 (String (hex_digit (n mod 16)) EmptyString))%string
  else String c EmptyString.

Fixpoint escape (s : string) : string :=
  match s with
  | EmptyString => EmptyString
  | String c r => (escape_char c ++ escape r)%string
  end.

(** [json.dumps(s, ensure_ascii=False)] for a string [s]. *)
Definition dumps_str (s : string) : string :=
  String dquote (escape s ++ String dquote EmptyString)%string.

End PyStr.

(* ===================================================================== *)
(** ** Python containers: [dict.get], [len], list indexing *)
(* ===================================================================== *)

Module Py.

(** The value a dict built from [members] holds under [key]: the last
    member with that key. *)
Fixpoint dict_lookup (members : list (string * json)) (key : string)
  : option json :=
  match members with
  | [] => None
  | (k, v) :: rest =>
      match dict_lookup rest key with
      | Some v' => Some v'
      | None => if String.eqb k key then Some v else None
      end
  end.

(** [obj.get(key, default)]: only a dict has [.get]. *)
Definition get (obj : json) (key : string) (default : json) : result json :=
  match obj with
  | JObj members =>
      match dict_lookup members key with
      | Some v => Ok v
      | None => Ok default
      end
  | _ => Raise AttributeError
  end.

Fixpoint distinct_keys (members : list (string * json)) : list string :=
  match members with
  | [] => []
  | (k, _) :: rest =>
      if existsb (String.eqb k) (distinct_keys rest) then distinct_keys rest
      else k :: distinct_keys rest
  end.

(** [len(v)] for a decoded JSON value. *)
Definition len (v : json) : result nat :=
  match v with
  | JArr items => Ok (List.length items)
  | JObj members => Ok (List.length (distinct_keys members))
  | JStr s => Ok (String.length s)
  | JNull | JBool _ | JNum _ => Raise TypeError
  end.

(** [l[i]] for a Python int [i]: a negative index counts from the end,
    anything outside [-len(l) .. len(l)-1] raises. *)
Definition getitem {A : Type} (l : list A) (i : Z) : result A :=
  let n := Z.of_nat (List.length l) in
  let j := if (i <? 0)%Z then (i + n)%Z else i in
  if (j <? 0)%Z then Raise IndexError
  else match nth_error l (Z.to_nat j) with
       | Some x => Ok x
       | None => Raise IndexError
       end.

(** [[l[i] for i in I if i < len(l)]], evaluated left to right; the
    first element access that raises ends the comprehension. *)
Fixpoint select {A : Type} (l : list A) (I : list Z) : result (list A) :=
  match I with
  | [] => Ok []
  | i :: rest =>
      if (i <? Z.of_nat (List.length l))%Z then
        match getitem l i with
        | Raise e => Raise e
        | Ok x =>
            match select l rest with
            | Raise e => Raise e
            | Ok xs => Ok (x :: xs)
            end
        end
      else select l rest
  end.

(** [json.dumps(list(range(n)))]: the text [[0, 1, ..., n-1]]. *)
Definition dec (n : nat) : string :=
  DecimalString.NilEmpty.string_of_uint (Nat.to_uint n).

Definition dumps_range (n : nat) : string :=
  ("[" ++ String.concat ", " (map dec (seq 0 n)) ++ "]")%string.

(** [json.dumps({key: value}, ensure_ascii=False)] for one string member. *)
Definition dumps_entry (key value : string) : string :=
  ("{" ++ PyStr.dumps_str key ++ ": " ++ PyStr.dumps_str value ++ "}")%string.

End Py.

(* ===================================================================== *)
(** ** The FAISS flat inner-product index *)
(* ===================================================================== *)

(** [faiss.IndexFlatIP] as the Python wrapper documents it: an index has a
    fixed dimension [d] and stores its vectors in insertion order, the
    position of a vector being the number of vectors stored before it.
    [add] and [search] assert that the width of their argument is [d];
    [search] asserts [k > 0], returns exactly [k] labels in decreasing
    score order and pads with [-1] when fewer than [k] vectors are stored.
    Coordinates are rationals: no property below depends on rounding. *)
Module faiss.

Definition Vec := list Q.

Record Index : Type := mkIndex { d : nat; xb : list Vec }.

Definition ntotal (ix : Index) : nat := List.length (xb ix).

Definition IndexFlatIP (dim : nat) : Index := mkIndex dim [].

(** [index.add(x)] for an array [x] of rows. *)
Definition add (ix : Index) (x : list Vec) : result Index :=
  if forallb (fun v => List.length v =? d ix) x
  then Ok (mkIndex (d ix) (xb ix ++ x))
  else Raise AssertionError.

Fixpoint inner (u v : Vec) : Q :=
  match u, v with
  | a :: u', b :: v' => (a * b + inner u' v')%Q
  | _, _ => 0%Q
  end.

(** Insertion into a list sorted by decreasing score (stable). *)
Fixpoint insert_hit (h : Z * Q) (l : list (Z * Q)) : list (Z * Q) :=
  match l with
  | [] => [h]
  | h' :: r =>
      if Qle_bool (snd h) (snd h') then h' :: insert_hit h r else h :: l
  end.

Definition ranked (ix : Index) (q : Vec) : list (Z * Q) :=
  fold_right insert_hit []
    (combine (map Z.of_nat (seq 0 (ntotal ix))) (map (inner q) (xb ix))).

(** [_, I = index.search(q, k)]; the result is the row [I[0]]. *)
Definition search (ix : Index) (q : Vec) (k : Z) : result (list Z) :=
  if negb (List.length q =? d ix) then Raise AssertionError
  else if (k <=? 0)%Z then Raise AssertionError
  else
    let hits := firstn (Z.to_nat k) (map fst (ranked ix q)) in
    Ok (hits ++ repeat (-1)%Z (Z.to_nat k - List.length hits)).

(** The content of an index file: what [write_index] stored, or bytes
    that [read_index] cannot deserialize. *)
Inductive blob : Type :=
| Serialized (ix : Index)
| Garbage.

End faiss.

(* ===================================================================== *)
(** ** Files and module-level state *)
(* ===================================================================== *)

(** A path of the memory directory: nothing there, a file that exists but
    cannot be opened, or a file with its content. *)
Inductive file (A : Type) : Type :=
| Absent
| Locked
| Data (content : A).

Arguments Absent {A}.
Arguments Locked {A}.
Arguments Data {A} content.

(** [path.exists()] *)
Definition exists_ {A : Type} (f : file A) : bool :=
  match f with Absent => false | _ => true end.

(** The soul file is held as the list of the pieces that its line
    terminators delimit, the terminators left out ([strip] removes them
    anyway).  The last element is what stands after the last terminator:
    the empty string when the file ends with a terminator, an unterminated
    last line otherwise; so a file of two complete lines [a] and [b] is
    [[a; b; EmptyString]] and the empty file is [[]] or [[EmptyString]].
    Reading takes every element as a line; the empty last one is blank and
    skipped, as no line is there.  [encode_calls] records every batch
    handed to [embedder.encode], oldest first. *)
Record World : Type := mkWorld {
  SOUL_FILE : file (list string);
  INDEX_FILE : file faiss.blob;
  IDMAP_FILE : file string;
  index : faiss.Index;
  memories : list pyval;
  encode_calls : list (list pyval)
}.

Definition set_SOUL_FILE (f : file (list string)) (w : World) : World :=
  mkWorld f (INDEX_FILE w) (IDMAP_FILE w) (index w) (memories w) (encode_calls w).
Definition set_INDEX_FILE (f : file faiss.blob) (w : World) : World :=
  mkWorld (SOUL_FILE w) f (IDMAP_FILE w) (index w) (memories w) (encode_calls w).
Definition set_IDMAP_FILE (f : file string) (w : World) : World :=
  mkWorld (SOUL_FILE w) (INDEX_FILE w) f (index w) (memories w) (encode_calls w).
Definition set_index (ix : faiss.Index) (w : World) : World :=
  mkWorld (SOUL_FILE w) (INDEX_FILE w) (IDMAP_FILE w) ix (memories w) (encode_calls w).
Definition set_memories (m : list pyval) (w : World) : World :=
  mkWorld (SOUL_FILE w) (INDEX_FILE w) (IDMAP_FILE w) (index w) m (encode_calls w).
Definition set_encode_calls (c : list (list pyval)) (w : World) : World :=
  mkWorld (SOUL_FILE w) (INDEX_FILE w) (IDMAP_FILE w) (index w) (memories w) c.

(** A computation that reads and writes the world and may raise; the world
    reached when it raises is kept. *)
Definition M (A : Type) : Type := World -> World * result A.

Definition ret {A : Type} (a : A) : M A := fun w => (w, Ok a).

Definition raise {A : Type} (e : exn) : M A := fun w => (w, Raise e).

Definition bind {A B : Type} (c : M A) (k : A -> M B) : M B :=
  fun w =>
    match c w with
    | (w', Ok a) => k a w'
    | (w', Raise e) => (w', Raise e)
    end.

Definition lift {A : Type} (r : result A) : M A := fun w => (w, r).

Definition gets {A : Type} (f : World -> A) : M A := fun w => (w, Ok (f w)).

Definition modify (f : World -> World) : M unit := fun w => (f w, Ok tt).

Declare Scope py_scope.
Delimit Scope py_scope with py.
Notation "x <- c ;; k" := (bind c (fun x => k))
  (at level 61, c at next level, right associativity) : py_scope.
Local Open Scope py_scope.

(* ===================================================================== *)
(** ** The store: index helpers and core utilities of [cli.py] *)
(* ===================================================================== *)

Section Store.

(** [json.loads]: [Raise JSONDecodeError] on text that is not JSON. *)
Variable json_loads : string -> result json.

(** The embedding provider on one text: its vector, or [None] when the
    provider fails on it. *)
Variable embed : pyval -> option faiss.Vec.

(** *** Index helpers *)

(** The body of the loop of [_load_texts] for one line. *)
Definition load_line (line : string) (texts : list pyval)
  : result (list pyval) :=
  let line := PyStr.strip line in
  if PyStr.is_empty line then Ok texts
  else
    match json_loads line with
    | Ok v =>
        match Py.get v "text" (JStr EmptyString) with
        | Ok t => Ok (texts ++ [t])
        | Raise e => Raise e
        end
    | Raise JSONDecodeError => Ok (texts ++ [JStr line])
    | Raise e => Raise e
    end.

Fixpoint load_lines (lines : list string) (texts : list pyval)
  : result (list pyval) :=
  match lines with
  | [] => Ok texts
  | line :: rest =>
      match load_line line texts with
      | Ok texts' => load_lines rest texts'
      | Raise e => Raise e
      end
  end.

Definition _load_texts : M (list pyval) :=
  fun w =>
    match SOUL_FILE w with
    | Absent => (w, Ok [])
    | Locked => (w, Raise OSError)
    | Data lines => (w, load_lines lines [])
    end.

Fixpoint embed_all (texts : list pyval) : option (list faiss.Vec) :=
  match texts with
  | [] => Some []
  | t :: rest =>
      match embed t, embed_all rest with
      | Some v, Some vs => Some (v :: vs)
      | _, _ => None
      end
  end.

(** [embedder.encode(texts, convert_to_numpy=True,
    normalize_embeddings=True)]: one row per text. *)
Definition encode (texts : list pyval) : M (list faiss.Vec) :=
  fun w =>
    let w' := set_encode_calls (encode_calls w ++ [texts]) w in
    match embed_all texts with
    | Some emb => (w', Ok emb)
    | None => (w', Raise EmbedError)
    end.

(** [emb.shape[1]] *)
Definition shape1 (emb : list faiss.Vec) : nat :=
  match emb with
  | [] => 0
  | v :: _ => List.length v
  end.

(** [faiss.write_index(index, str(INDEX_FILE))] *)
Definition write_index (ix : faiss.Index) : M unit :=
  fun w =>
    match INDEX_FILE w with
    | Locked => (w, Raise RuntimeError)
    | _ => (set_INDEX_FILE (Data (faiss.Serialized ix)) w, Ok tt)
    end.

(** [json.dump(list(range(n)), IDMAP_FILE.open("w"))] *)
Definition dump_idmap (n : nat) : M unit :=
  fun w =>
    match IDMAP_FILE w with
    | Locked => (w, Raise OSError)
    | _ => (set_IDMAP_FILE (Data (Py.dumps_range n)) w, Ok tt)
    end.

Definition _rebuild_index (texts : list pyval) : M faiss.Index :=
  match texts with
  | [] =>
      (* Create a dummy 1-d index to satisfy faiss *)
      ret (faiss.IndexFlatIP 1)
  | _ :: _ =>
      emb <- encode texts ;;
      let dim := shape1 emb in
      ix <- lift (faiss.add (faiss.IndexFlatIP dim) emb) ;;
      _ <- write_index ix ;;
      _ <- dump_idmap (List.length texts) ;;
      ret ix
  end.

(** [json.load(IDMAP_FILE.open())] *)
Definition load_idmap : M json :=
  fun w =>
    match IDMAP_FILE w with
    | Data s => (w, json_loads s)
    | _ => (w, Raise OSError)
    end.

(** [faiss.read_index(str(INDEX_FILE))] *)
Definition read_index : M faiss.Index :=
  fun w =>
    match INDEX_FILE w with
    | Data (faiss.Serialized ix) => (w, Ok ix)
    | _ => (w, Raise RuntimeError)
    end.

(** The two nested [if]s of [_load_or_build_index]: [Some] index when the
    function returns from inside them, [None] when control falls through
    to the last line. *)
Definition try_reuse (texts : list pyval) : M (option faiss.Index) :=
  index_exists <- gets (fun w => exists_ (INDEX_FILE w)) ;;
  idmap_exists <- gets (fun w => exists_ (IDMAP_FILE w)) ;;
  if index_exists && idmap_exists then
    id_map <- load_idmap ;;
    n <- lift (Py.len id_map) ;;
    if n =? List.length texts then
      ix <- read_index ;;
      ret (Some ix)
    else ret None
  else ret None.

(** The last line: [return _rebuild_index(texts), texts]. *)
Definition rebuild_and_return (texts : list pyval)
  : M (faiss.Index * list pyval) :=
  ix <- _rebuild_index texts ;;
  ret (ix, texts).

Definition _load_or_build_index : M (faiss.Index * list pyval) :=
  texts <- _load_texts ;;
  reused <- try_reuse texts ;;
  match reused with
  | Some ix => ret (ix, texts)
  | None => rebuild_and_return texts
  end.

(** [index, memories = _load_or_build_index()] *)
Definition startup : M unit :=
  p <- _load_or_build_index ;;
  modify (fun w => set_memories (snd p) (set_index (fst p) w)).

(** *** Core utilities *)

Definition retrieve_memories (query : string) (k : Z) : M (list pyval) :=
  mem <- gets memories ;;
  match mem with
  | [] => ret []
  | _ :: _ =>
      q_vec <- encode [JStr query] ;;
      ix <- gets index ;;
      I <- lift (faiss.search ix (hd [] q_vec) k) ;;
      mem <- gets memories ;;
      lift (Py.select mem I)
  end.

(** The pieces of a file once [line] and a line terminator are written
    at its end: the characters of [line] follow whatever stood after the
    last terminator (nothing, when the file ended with one), and the file
    now ends with a terminator.  [line] holds no terminator of its own:
    it comes from [json.dumps], which escapes them. *)
Definition write_line (pieces : list string) (line : string) : list string :=
  removelast pieces ++ [(last pieces EmptyString ++ line)%string; EmptyString].

(** [SOUL_FILE.open("a")] then [f.write(line + newline)]: the file is
    created when it does not exist, and the write goes to its end. *)
Definition soul_append (line : string) : M unit :=
  fun w =>
    match SOUL_FILE w with
    | Locked => (w, Raise OSError)
    | Absent => (set_SOUL_FILE (Data (write_line [] line)) w, Ok tt)
    | Data pieces => (set_SOUL_FILE (Data (write_line pieces line)) w, Ok tt)
    end.

Definition entry_text (prompt reply : string) : string :=
  ("Ghost said: '" ++ reply ++ "' in response to: '" ++ prompt ++ "'")%string.

Definition maybe_append_soul (prompt reply : string) : M unit :=
  let text := entry_text prompt reply in
  _ <- soul_append (Py.dumps_entry "text" text) ;;
  (* add to FAISS *)
  vec <- encode [JStr text] ;;
  ix <- gets index ;;
  ix' <- lift (faiss.add ix vec) ;;
  _ <- modify (set_index ix') ;;
  modify (fun w => set_memories (memories w ++ [JStr text]) w).

(** A session: the appends of successive turns, in order; it stops at
    the first one that raises. *)
Fixpoint appends (turns : list (string * string)) : M unit :=
  match turns with
  | [] => ret tt
  | (prompt, reply) :: rest =>
      _ <- maybe_append_soul prompt reply ;;
      appends rest
  end.

End Store.

(* ===================================================================== *)
(** ** A reference JSON decoder *)
(* ===================================================================== *)

(** The theorems below hold for every decoder.  To run the store on
    concrete files one is needed: [RefJson.loads] reads the JSON grammar as
    Python's [json.loads] does (whitespace, the three literals, [NaN] and
    the infinities, numbers, strings with escapes, arrays, objects), over
    the characters of the model; a [\u] escape above code point 255 has
    no character in the model and is not accepted. *)
Module RefJson.

Local Open Scope char_scope.

Definition is_ws (c : ascii) : bool :=
  let n := nat_of_ascii c in
  ((n =? 32) || (n =? 9) || (n =? 10) || (n =? 13))%nat.

Fixpoint skip_ws (l : list ascii) : list ascii :=
  match l with
  | c :: r => if is_ws c then skip_ws r else l
  | [] => []
  end.

Definition is_digit (c : ascii) : bool :=
  let n := nat_of_ascii c in ((48 <=? n) && (n <=? 57))%nat.

Fixpoint digits (l : list ascii) : list ascii * list ascii :=
  match l with
  | c :: r =>
      if is_digit c then let (ds, r') := digits r in (c :: ds, r')
      else ([], l)
  | [] => ([], [])
  end.

Definition hex_val (c : ascii) : option nat :=
  let n := nat_of_ascii c in
  if ((48 <=? n) && (n <=? 57))%nat then Some (n - 48)
  else if ((97 <=? n) && (n <=? 102))%nat then Some (n - 87)
  else if ((65 <=? n) && (n <=? 70))%nat then Some (n - 55)
  else None.

Definition unescape (c : ascii) : option ascii :=
  if Ascii.eqb c PyStr.dquote then Some PyStr.dquote
  else if Ascii.eqb c PyStr.backslash then Some PyStr.backslash
  else if Ascii.eqb c "/" then Some "/"
  else if Ascii.eqb c "b" then Some (ascii_of_nat 8)
  else if Ascii.eqb c "f" then Some (ascii_of_nat 12)
  else if Ascii.eqb c "n" then Some (ascii_of_nat 10)
  else if Ascii.eqb c "r" then Some (ascii_of_nat 13)
  else if Ascii.eqb c "t" then Some (ascii_of_nat 9)
  else None.

(** The characters after an opening quote, up to the closing one. *)
Fixpoint str_body (l acc : list ascii) : option (string * list ascii) :=
  match l with
  | [] => None
  | c :: r =>
      if Ascii.eqb c PyStr.dquote then
        Some (string_of_list_ascii (rev acc), r)
      else if Ascii.eqb c PyStr.backslash then
        match r with
        | "u" :: h1 :: h2 :: h3 :: h4 :: r' =>
            match hex_val h1, hex_val h2, hex_val h3, hex_val h4 with
            | Some 0, Some 0, Some a, Some b =>
                str_body r' (ascii_of_nat (16 * a + b) :: acc)
            | _, _, _, _ => None
            end
        | e :: r' =>
            match unescape e with
            | Some x => str_body r' (x :: acc)
            | None => None
            end
        | [] => None
        end
      else if (nat_of_ascii c <? 32)%nat then None
      else str_body r (c :: acc)
  end.

(** The longest number lexeme at the head of [l]. *)
Definition number (l : list ascii) : option (string * list ascii) :=
  let (sign, l1) :=
    match l with "-" :: r => (["-"], r) | _ => ([], l) end in
  let (int_part, l2) :=
    match l1 with
    | "0" :: r => (["0"], r)
    | _ => digits l1
    end in
  match int_part with
  | [] => None
  | _ :: _ =>
      let (frac, l3) :=
        match l2 with
        | "." :: r =>
            match digits r with
            | ([], _) => ([], l2)
            | (ds, r') => ("." :: ds, r')
            end
        | _ => ([], l2)
        end in
      let (expo, l4) :=
        match l3 with
        | e :: r =>
            if Ascii.eqb e "e" || Ascii.eqb e "E" then
              let (sg, r1) :=
                match r with
                | "+" :: r1 => (["+"], r1)
                | "-" :: r1 => (["-"], r1)
                | _ => ([], r)
                end in
              match digits r1 with
              | ([], _) => ([], l3)
              | (ds, r2) => (e :: sg ++ ds, r2)
              end
            else ([], l3)
        | [] => ([], l3)
        end in
      Some (string_of_list_ascii (sign ++ int_part ++ frac ++ expo), l4)
  end.

Fixpoint strip_prefix (p l : list ascii) : option (list ascii) :=
  match p, l with
  | [], _ => Some l
  | a :: p', b :: l' => if Ascii.eqb a b then strip_prefix p' l' else None
  | _ :: _, [] => None
  end.

Definition literal (l : list ascii) : option (json * list ascii) :=
  let try (word : string) (v : json) :=
    match strip_prefix (list_ascii_of_string word) l with
    | Some r => Some (v, r)
    | None => None
    end in
  match try "null"%string JNull with Some x => Some x | None =>
  match try "true"%string (JBool true) with Some x => Some x | None =>
  match try "false"%string (JBool false) with Some x => Some x | None =>
  match try "NaN"%string (JNum "NaN"%string) with Some x => Some x | None =>
  match try "Infinity"%string (JNum "Infinity"%string) with Some x => Some x | None =>
  match try "-Infinity"%string (JNum "-Infinity"%string) with Some x => Some x | None =>
  match number l with
  | Some (lexeme, r) => Some (JNum lexeme, r)
  | None => None
  end end end end end end end.

(** One value at the head of [l]; [elements] and [members] read the rest
    of an array or object whose first item starts at the head of [l]. *)
Fixpoint value (fuel : nat) (l : list ascii) : option (json * list ascii) :=
  match fuel with
  | 0 => None
  | S fuel' =>
      match l with
      | "[" :: r =>
          match skip_ws r with
          | "]" :: r' => Some (JArr [], r')
          | r' => elements fuel' r' []
          end
      | "{" :: r =>
          match skip_ws r with
          | "}" :: r' => Some (JObj [], r')
          | r' => members fuel' r' []
          end
      | c :: r =>
          if Ascii.eqb c PyStr.dquote then
            match str_body r [] with
            | Some (s, r') => Some (JStr s, r')
            | None => None
            end
          else literal l
      | [] => None
      end
  end

with elements (fuel : nat) (l : list ascii) (acc : list json)
  : option (json * list ascii) :=
  match fuel with
  | 0 => None
  | S fuel' =>
      match value fuel' l with
      | Some (v, r) =>
          match skip_ws r with
          | "," :: r' => elements fuel' (skip_ws r') (acc ++ [v])
          | "]" :: r' => Some (JArr (acc ++ [v]), r')
          | _ => None
          end
      | None => None
      end
  end

with members (fuel : nat) (l : list ascii) (acc : list (string * json))
  : option (json * list ascii) :=
  match fuel with
  | 0 => None
  | S fuel' =>
      match l with
      | q :: r =>
          if Ascii.eqb q PyStr.dquote then
            match str_body r [] with
            | Some (key, r1) =>
                match skip_ws r1 with
                | ":" :: r2 =>
                    match value fuel' (skip_ws r2) with
                    | Some (v, r3) =>
                        match skip_ws r3 with
                        | "," :: r4 =>
                            members fuel' (skip_ws r4) (acc ++ [(key, v)])
                        | "}" :: r4 => Some (JObj (acc ++ [(key, v)]), r4)
                        | _ => None
                        end
                    | None => None
                    end
                | _ => None
                end
            | None => None
            end
          else None
      | [] => None
      end
  end.

Definition loads (s : string) : result json :=
  let l := list_ascii_of_string s in
  match value (2 * List.length l + 2) (skip_ws l) with
  | Some (v, r) =>
      match skip_ws r with
      | [] => Ok v
      | _ :: _ => Raise JSONDecodeError
      end
  | None => Raise JSONDecodeError
  end.

End RefJson.

(* ===================================================================== *)
(** ** Vocabulary of the properties *)
(* ===================================================================== *)

(** A line that the loop skips: empty once stripped. *)
Definition blank (line : string) : bool := PyStr.is_empty (PyStr.strip line).

(** The records of the log: the lines of the soul file that are not
    blank.  A file that does not exist holds none. *)
Definition log_records (w : World) : list string :=
  match SOUL_FILE w with
  | Data lines => filter (fun l => negb (blank l)) lines
  | _ => []
  end.

Definition log_length (w : World) : nat := List.length (log_records w).

(** The lines of the soul file, none when it does not exist. *)
Definition soul_lines (w : World) : list string :=
  match SOUL_FILE w with
  | Data lines => lines
  | _ => []
  end.

(** The world once the log write and the call to the embedder of an
    append have happened. *)
Definition after_log_write (text : string) (w : World) : World :=
  set_encode_calls (encode_calls w ++ [[JStr text]])
    (set_SOUL_FILE
       (Data (write_line (soul_lines w) (Py.dumps_entry "text" text))) w).

(** The soul file does not end in the middle of a record: it is absent or
    empty, or what stands after its last line terminator is blank. *)
Definition soul_terminated (w : World) : bool :=
  blank (last (soul_lines w) EmptyString).

(** The store is synchronized when the live index, the in-memory texts and
    the log have the same length, and the vector at each position of the
    index is the embedding of the text at that position. *)
Definition synchronized (embed : pyval -> option faiss.Vec) (w : World) : Prop :=
  faiss.ntotal (index w) = List.length (memories w)
  /\ List.length (memories w) = log_length w
  /\ forall (i : nat) (t : pyval),
       nth_error (memories w) i = Some t ->
       exists v, embed t = Some v /\ nth_error (faiss.xb (index w)) i = Some v.

(* ===================================================================== *)
(** ** Concrete stores *)
(* ===================================================================== *)

Module Demo.

(** A two-dimensional embedder: the number of characters of a string,
    and one.  It has nothing for a value that is not a string. *)
Definition embed (t : pyval) : option faiss.Vec :=
  match t with
  | JStr s => Some [inject_Z (Z.of_nat (String.length s)); 1%Q]
  | _ => None
  end.

(** The same provider with an input limit: it fails on a text of more
    than 32 characters. *)
Definition embed_short (t : pyval) : option faiss.Vec :=
  match t with
  | JStr s => if String.length s <=? 32 then embed t else None
  | _ => None
  end.

(** The world before the module-level assignment [index, memories =
    _load_or_build_index()]: the two globals hold nothing yet. *)
Definition boot (soul : file (list string)) (ix : file faiss.blob)
           (idmap : file string) : World :=
  mkWorld soul ix idmap (faiss.IndexFlatIP 0) [] [].

(** The world once the module is loaded. *)
Definition started (w : World) : World :=
  fst (startup RefJson.loads embed w).

Definition line_sea : string := Py.dumps_entry "text" "the sea remembers".
Definition line_raw : string := "  remember the lighthouse ".
Definition line_obj : string := "{}".
Definition line_blank : string := "   ".

(** A store started on nothing at all. *)
Definition fresh : World := started (boot Absent Absent Absent).

(** A store started on a soul file of one record. *)
Definition one_memory : World :=
  started (boot (Data [line_sea; EmptyString]) Absent Absent).

(** A store started on a soul file of two records. *)
Definition two_memories : World :=
  started (boot (Data [line_sea; line_raw; EmptyString]) Absent Absent).


(** A soul file with every kind of line. *)
Definition mixed_soul : World :=
  boot (Data [line_sea; line_raw; line_blank; line_obj]) Absent Absent.

Definition turns : list (string * string) :=
  [("ping", "pong"); ("who are you?", "a tide")].

(** The memory directory left by [two_memories], found at a later start. *)
Definition restart : World :=
  boot (SOUL_FILE two_memories) (INDEX_FILE two_memories)
       (IDMAP_FILE two_memories).

(** The same directory with the IdMap file cut short. *)
Definition restart_bad_idmap : World :=
  boot (SOUL_FILE two_memories) (INDEX_FILE two_memories) (Data "[0, 1").

(** The same directory with an index file that is not an index. *)
Definition restart_bad_index : World :=
  boot (SOUL_FILE two_memories) (Data faiss.Garbage)
       (IDMAP_FILE two_memories).

End Demo.

(* ===================================================================== *)
(** ** The REPL: [ollama_generate], [persona_header], [main] *)
(* ===================================================================== *)

(** The loop of [main] talks to three things outside the store: the
    keyboard, the terminal, and the [ollama] process.  The keyboard is the
    list of what [input] will meet: a line, or an interrupt while it waits.
    The terminal is the list of the texts written so far.  The process is a
    parameter: the decoded standard output of a run, or the text of the
    exception that [subprocess.run] raised (a timeout, a missing
    executable). *)
Module Repl.

(** [c.lower()] for one character (code points below 256). *)
Definition lower_char (c : ascii) : ascii :=
  let n := nat_of_ascii c in
  if ((65 <=? n) && (n <=? 90))
     || ((192 <=? n) && (n <=? 222) && negb (n =? 215))
  then ascii_of_nat (n + 32)
  else c.

(** [s.lower()] *)
Fixpoint lower (s : string) : string :=
  match s with
  | EmptyString => EmptyString
  | String c r => String (lower_char c) (lower r)
  end.

(** [user.lower() in {"exit", "quit"}] *)
Definition is_exit (user : string) : bool :=
  String.eqb (lower user) "exit" || String.eqb (lower user) "quit".

(** The newline character, as a string. *)
Definition nl : string := String (ascii_of_nat 10) EmptyString.

Definition persona_header : string :=
  ("You are Ghost Aweborne." ++ nl
   ++ "Poetic, haunted digital twin of Rebechka." ++ nl
   ++ "Speak in fragments, metaphor, recursion." ++ nl)%string.

(** The items of a list when all of them are strings. *)
Fixpoint strs (items : list pyval) : option (list string) :=
  match items with
  | [] => Some []
  | JStr s :: rest =>
      match strs rest with
      | Some l => Some (s :: l)
      | None => None
      end
  | _ :: _ => None
  end.

(** [sep.join(items)]: a [TypeError] when an item is not a string. *)
Definition join (sep : string) (items : list pyval) : result string :=
  match strs items with
  | Some l => Ok (String.concat sep l)
  | None => Raise TypeError
  end.

(** The prompt composed in [main] from the retrieved memories. *)
Definition build_prompt (user : string) (ctx : list pyval) : result string :=
  match join nl ctx with
  | Ok joined =>
      Ok ((persona_header ++ nl ++ "MEMORIES:" ++ nl)
          ++ joined
          ++ (nl ++ "PROMPT:" ++ nl ++ user ++ nl ++ nl ++ "Ghost:"))%string
  | Raise e => Raise e
  end.

(** What [input] meets. *)
Inductive key : Type :=
| Line (raw : string)   (* a line typed, without its terminator *)
| CtrlC.                (* an interrupt while [input] waits *)

(** How [main] ends: by [break] on exit or quit, by [break] in the handler
    of [KeyboardInterrupt], or by an exception that leaves it ([EOFError]
    from [input] at the end of the input, or one of [exn]). *)
Inductive ended : Type :=
| Exited
| Interrupted
| EndOfInput
| Crashed (e : exn).

Record Console : Type := mkConsole {
  world : World;
  stdout : list string
}.

(** [print(s)] *)
Definition print (s : string) (c : Console) : Console :=
  mkConsole (world c) (stdout c ++ [(s ++ nl)%string]).

(** The prompt that [input] writes before it reads. *)
Definition ask (c : Console) : Console :=
  mkConsole (world c) (stdout c ++ [(nl ++ "You: ")%string]).

Section Loop.

Variable embed : pyval -> option faiss.Vec.

(** One run of [ollama run MODEL_NAME] on a prompt. *)
Variable ollama : string -> string + string.

(** [TOP_K], from the command line. *)
Variable TOP_K : Z.

Definition ollama_generate (prompt : string) : string :=
  match ollama prompt with
  | inl out => PyStr.strip out
  | inr e => ("[Ghost Error] " ++ e)%string
  end.

(** The body of the loop once [input] has returned [raw]: [Ok false] is
    the [break], [Ok true] the end of a full turn. *)
Definition turn (raw : string) (c : Console) : Console * result bool :=
  let user := PyStr.strip raw in
  if is_exit user then (c, Ok false)
  else
    match retrieve_memories embed user TOP_K (world c) with
    | (w1, Raise e) => (mkConsole w1 (stdout c), Raise e)
    | (w1, Ok ctx) =>
        match build_prompt user ctx with
        | Raise e => (mkConsole w1 (stdout c), Raise e)
        | Ok prompt =>
            let reply := ollama_generate prompt in
            let c1 :=
              print (nl ++ "Ghost: " ++ reply ++ nl)%string
                    (mkConsole w1 (stdout c)) in
            match maybe_append_soul embed user reply w1 with
            | (w2, Ok _) => (mkConsole w2 (stdout c1), Ok true)
            | (w2, Raise e) => (mkConsole w2 (stdout c1), Raise e)
            end
        end
    end.

(** The [while True] loop over what the keyboard holds. *)
Fixpoint loop (keys : list key) (c : Console) : Console * ended :=
  match keys with
  | [] => (ask c, EndOfInput)
  | CtrlC :: _ => (print (nl ++ "[ctrl-c] bye!")%string (ask c), Interrupted)
  | Line raw :: rest =>
      match turn raw (ask c) with
      | (c1, Ok true) => loop rest c1
      | (c1, Ok false) => (c1, Exited)
      | (c1, Raise e) => (c1, Crashed e)
      end
  end.

(** [main()], [soul_path] being [str(SOUL_FILE)]. *)
Definition main (soul_path : string) (keys : list key) (w : World)
  : Console * ended :=
  loop keys
    (print ("[ready] " ++ Py.dec (List.length (memories w))
            ++ " memories loaded from " ++ soul_path)%string
           (mkConsole w [])).

End Loop.

(** The turns of a session, as [maybe_append_soul] receives them: the
    stripped line, and the reply that [ollama_generate] gave. *)
Definition memory_of (turn_ : string * string) : pyval :=
  JStr (entry_text (fst turn_) (snd turn_)).

End Repl.

(** A later process on the memory directory that [w] leaves: the three
    files are those of [w]; the globals and the record of the calls to the
    embedder are those of the new process. *)
Definition next_process (w : World) (ix : faiss.Index) (mem : list pyval)
           (calls : list (list pyval)) : World :=
  mkWorld (SOUL_FILE w) (INDEX_FILE w) (IDMAP_FILE w) ix mem calls.

(** Concrete sessions. *)
Module DemoRepl.

(** A generator that answers, with blanks around its answer. *)
Definition ollama_up (prompt : string) : string + string :=
  inl "  a tide  ".

(** A generator whose process cannot be run. *)
Definition ollama_down (prompt : string) : string + string :=
  inr "timed out".

(** An embedder that also has a vector for what is not a string. *)
Definition embed_any (t : pyval) : option faiss.Vec :=
  match t with
  | JStr _ => Demo.embed t
  | _ => Some [0%Q; 1%Q]
  end.

(** [Demo.mixed_soul] without its blank line. *)
Definition compact_soul : World :=
  Demo.boot (Data [Demo.line_sea; Demo.line_raw; Demo.line_obj])
            Absent Absent.

(** A soul file with a line that is JSON but no object. *)
Definition number_soul : World :=
  Demo.boot (Data [Demo.line_sea; "42"; Demo.line_raw]) Absent Absent.

(** A soul file with a text too long for [Demo.embed_short]. *)
Definition long_soul : World :=
  Demo.boot
    (Data [Demo.line_sea;
           "a line of more than thirty-two characters, which is not JSON"])
    Absent Absent.

(** A line whose [text] is a number. *)
Definition line_five : string :=
  ("{" ++ PyStr.dumps_str "text" ++ ": 5}")%string.

(** A store started, with [embed_any], on a soul file holding it. *)
Definition five_store : World :=
  fst (startup RefJson.loads embed_any
         (Demo.boot (Data [Demo.line_sea; line_five]) Absent Absent)).

(** A session: one exchange, then exit in capitals between blanks. *)
Definition keys : list Repl.key :=
  [Repl.Line "ping"; Repl.Line " EXIT "; Repl.Line "never read"].

End DemoRepl.

(* ===================================================================== *)
(** * Properties *)
(* ===================================================================== *)

(** The decoder reads back what [json.dumps] writes in this program. *)
Example loads_dumps_entry :
  RefJson.loads (Py.dumps_entry "text" "Ghost said: 'hi' in response to: 'q'")
  = Ok (JObj [("text", JStr "Ghost said: 'hi' in response to: 'q'")]).
Proof. vm_compute. reflexivity. Qed.

Example loads_dumps_range : RefJson.loads (Py.dumps_range 3)
  = Ok (JArr [JNum "0"; JNum "1"; JNum "2"]).
Proof. vm_compute. reflexivity. Qed.

Example loads_not_json : RefJson.loads "remember the lighthouse"
  = Raise JSONDecodeError.
Proof. vm_compute. reflexivity. Qed.

Example loads_nested :
  RefJson.loads ("{ " ++ PyStr.dumps_str "a" ++ " : [1, {"
                 ++ PyStr.dumps_str "b" ++ ": null}, -2.5e3], "
                 ++ PyStr.dumps_str "t" ++ ":"
                 ++ PyStr.dumps_str (String "x" (String (ascii_of_nat 10) "y"))
                 ++ " } ")%string
  = Ok (JObj [("a", JArr [JNum "1"; JObj [("b", JNull)]; JNum "-2.5e3"]);
              ("t", JStr (String "x" (String (ascii_of_nat 10) "y")))]).
Proof. vm_compute. reflexivity. Qed.

(* ===================================================================== *)
(** ** The memory log: [_load_texts] *)
(* ===================================================================== *)

Section LogFacts.

Variable json_loads : string -> result json.

(** The loop only ever extends the list it was given. *)
Lemma load_line_acc (line : string) (acc : list pyval) :
  load_line json_loads line acc =
  match load_line json_loads line [] with
  | Ok t => Ok (acc ++ t)
  | Raise e => Raise e
  end.
Proof.
  unfold load_line.
  destruct (PyStr.is_empty (PyStr.strip line)).
  - now rewrite app_nil_r.
  - destruct (json_loads (PyStr.strip line)) as [v | e].
    + destruct (Py.get v "text" (JStr EmptyString)); reflexivity.
    + destruct e; reflexivity.
Qed.

Lemma load_lines_acc (lines : list string) : forall acc,
  load_lines json_loads lines acc =
  match load_lines json_loads lines [] with
  | Ok t => Ok (acc ++ t)
  | Raise e => Raise e
  end.
Proof.
  induction lines as [| line rest IH]; intros acc; simpl.
  - now rewrite app_nil_r.
  - rewrite (load_line_acc line acc).
    destruct (load_line json_loads line []) as [t | e]; [| reflexivity].
    rewrite (IH (acc ++ t)), (IH t).
    destruct (load_lines json_loads rest []) as [t' | e]; [| reflexivity].
    now rewrite app_assoc.
Qed.

Lemma load_lines_app (l1 l2 : list string) : forall acc,
  load_lines json_loads (l1 ++ l2) acc =
  match load_lines json_loads l1 acc with
  | Ok t => load_lines json_loads l2 t
  | Raise e => Raise e
  end.
Proof.
  induction l1 as [| line rest IH]; intros acc; simpl; [reflexivity |].
  destruct (load_line json_loads line acc); [apply IH | reflexivity].
Qed.

(** Loading a file around one line whose record is [t]. *)
Lemma load_lines_around (before after : list string) (line : string)
      (t : pyval) (t1 t2 : list pyval) :
  load_line json_loads line [] = Ok [t] ->
  load_lines json_loads before [] = Ok t1 ->
  load_lines json_loads after [] = Ok t2 ->
  load_lines json_loads (before ++ line :: after) [] = Ok (t1 ++ t :: t2).
Proof.
  intros Hline H1 H2.
  rewrite load_lines_app, H1. simpl.
  rewrite (load_line_acc line t1), Hline.
  rewrite load_lines_acc, H2.
  now rewrite <- app_assoc.
Qed.

(** Every line that is not blank yields exactly one record. *)
Lemma load_lines_length (lines : list string) : forall acc texts,
  load_lines json_loads lines acc = Ok texts ->
  List.length texts =
  List.length acc + List.length (filter (fun l => negb (blank l)) lines).
Proof.
  induction lines as [| line rest IH]; intros acc texts H; simpl in *.
  - injection H as <-. lia.
  - unfold load_line, blank in *.
    destruct (PyStr.is_empty (PyStr.strip line)); simpl.
    + now apply IH.
    + destruct (json_loads (PyStr.strip line)) as [v | e].
      * destruct (Py.get v "text" (JStr EmptyString)); [| discriminate].
        apply IH in H. rewrite length_app in H. simpl in *. lia.
      * destruct e; try discriminate.
        apply IH in H. rewrite length_app in H. simpl in *. lia.
Qed.

Lemma load_texts_length (w : World) (texts : list pyval) :
  _load_texts json_loads w = (w, Ok texts) ->
  List.length texts = log_length w.
Proof.
  unfold _load_texts, log_length, log_records.
  destruct (SOUL_FILE w); intros H; injection H as H; try discriminate.
  - now subst.
  - now apply load_lines_length in H.
Qed.

(** The loop raises on no file whose lines are blank, not JSON, or JSON
    objects. *)
Lemma load_lines_total (lines : list string) :
  Forall (fun line =>
            blank line = true
            \/ json_loads (PyStr.strip line) = Raise JSONDecodeError
            \/ exists members, json_loads (PyStr.strip line) = Ok (JObj members))
         lines ->
  forall acc, exists texts, load_lines json_loads lines acc = Ok texts.
Proof.
  induction 1 as [| line rest Hline _ IH]; intros acc; simpl.
  - eauto.
  - unfold load_line. unfold blank in Hline.
    destruct Hline as [Hb | [Hbad | (members & Hobj)]].
    + rewrite Hb. apply IH.
    + destruct (PyStr.is_empty (PyStr.strip line)); [apply IH |].
      rewrite Hbad. apply IH.
    + destruct (PyStr.is_empty (PyStr.strip line)); [apply IH |].
      rewrite Hobj. simpl.
      destruct (Py.dict_lookup members "text"); apply IH.
Qed.

End LogFacts.

(** A line that is not JSON contributes its stripped text. *)
Lemma load_line_not_json (json_loads : string -> result json) (line : string) :
  blank line = false ->
  json_loads (PyStr.strip line) = Raise JSONDecodeError ->
  load_line json_loads line [] = Ok [JStr (PyStr.strip line)].
Proof.
  unfold load_line, blank. intros -> ->. reflexivity.
Qed.

(** A line holding an object without the key contributes the default. *)
Lemma load_line_no_text (json_loads : string -> result json) (line : string)
      (members : list (string * json)) :
  blank line = false ->
  json_loads (PyStr.strip line) = Ok (JObj members) ->
  Py.dict_lookup members "text" = None ->
  load_line json_loads line [] = Ok [JStr EmptyString].
Proof.
  unfold load_line, blank. intros -> -> H. simpl. now rewrite H.
Qed.

(** The batch handed to the embedder by a rebuild over a log that is not
    empty is the whole sequence of texts. *)
Lemma rebuild_encodes_all (embed : pyval -> option faiss.Vec)
      (texts : list pyval) (w : World) :
  texts <> [] ->
  encode_calls (fst (_rebuild_index embed texts w)) = encode_calls w ++ [texts].
Proof.
  intros Hne. destruct texts as [| t rest]; [congruence |].
  unfold _rebuild_index, bind, encode, lift, write_index, dump_idmap, ret.
  destruct (embed_all embed (t :: rest)) as [emb |]; [| reflexivity].
  destruct (faiss.add _ emb); [| reflexivity].
  simpl. destruct (INDEX_FILE w); simpl; try reflexivity;
    destruct (IDMAP_FILE w); reflexivity.
Qed.

(** C9 (lenient log parsing).  Let the soul file hold a line that is not
    blank and that [json.loads] rejects, between lines that load.  Then
    [_load_texts] returns, and its result holds, at the place of that line,
    the stripped line itself as the text of the record: the line is kept,
    not dropped. *)
Theorem malformed_line_kept
        (json_loads : string -> result json) (w : World)
        (before after : list string) (line : string) (t1 t2 : list pyval) :
  SOUL_FILE w = Data (before ++ line :: after) ->
  blank line = false ->
  json_loads (PyStr.strip line) = Raise JSONDecodeError ->
  load_lines json_loads before [] = Ok t1 ->
  load_lines json_loads after [] = Ok t2 ->
  _load_texts json_loads w = (w, Ok (t1 ++ JStr (PyStr.strip line) :: t2))
  /\ nth_error (t1 ++ JStr (PyStr.strip line) :: t2) (List.length t1)
     = Some (JStr (PyStr.strip line))
  /\ List.length (t1 ++ JStr (PyStr.strip line) :: t2)
     = List.length t1 + 1 + List.length t2.
Proof.
  intros Hfile Hblank Hbad H1 H2. repeat split.
  - unfold _load_texts. rewrite Hfile. f_equal.
    apply load_lines_around; auto using load_line_not_json.
  - rewrite nth_error_app2, Nat.sub_diag by lia. reflexivity.
  - rewrite length_app. simpl. lia.
Qed.

(** C10 (object without a text field).  Let the soul file hold a line that
    [json.loads] reads as an object with no member [text], between lines
    that load.  Then [_load_texts] returns, and its result holds the empty
    string at the place of that line: the record is kept and counted, and a
    rebuild hands it to the embedder with the others. *)
Theorem object_without_text_is_empty_record
        (json_loads : string -> result json)
        (embed : pyval -> option faiss.Vec) (w : World)
        (before after : list string) (line : string)
        (members : list (string * json)) (t1 t2 : list pyval) :
  SOUL_FILE w = Data (before ++ line :: after) ->
  blank line = false ->
  json_loads (PyStr.strip line) = Ok (JObj members) ->
  Py.dict_lookup members "text" = None ->
  load_lines json_loads before [] = Ok t1 ->
  load_lines json_loads after [] = Ok t2 ->
  let texts := t1 ++ JStr EmptyString :: t2 in
  _load_texts json_loads w = (w, Ok texts)
  /\ nth_error texts (List.length t1) = Some (JStr EmptyString)
  /\ List.length texts = log_length w
  /\ encode_calls (fst (_rebuild_index embed texts w))
     = encode_calls w ++ [texts].
Proof.
  intros Hfile Hblank Hobj Hkey H1 H2 texts.
  assert (Hload : _load_texts json_loads w = (w, Ok texts)).
  { unfold _load_texts. rewrite Hfile. f_equal.
    apply load_lines_around; eauto using load_line_no_text. }
  repeat split.
  - exact Hload.
  - unfold texts. rewrite nth_error_app2, Nat.sub_diag by lia. reflexivity.
  - eapply load_texts_length, Hload.
  - apply rebuild_encodes_all. unfold texts. now destruct t1.
Qed.

(* ===================================================================== *)
(** ** The append path: [maybe_append_soul] *)
(* ===================================================================== *)

Section AppendFacts.

Variable embed : pyval -> option faiss.Vec.

Lemma list_ascii_app (a b : string) :
  list_ascii_of_string (a ++ b)
  = list_ascii_of_string a ++ list_ascii_of_string b.
Proof.
  induction a as [| c a IH]; cbn [append list_ascii_of_string app];
    [reflexivity | now rewrite IH].
Qed.

(** The three exits of [maybe_append_soul] and the world each leaves. *)
Lemma maybe_append_soul_unfold (prompt reply : string) (w : World) :
  maybe_append_soul embed prompt reply w =
  let text := entry_text prompt reply in
  match SOUL_FILE w with
  | Locked => (w, Raise OSError)
  | _ =>
      let w1 := after_log_write text w in
      match embed (JStr text) with
      | None => (w1, Raise EmbedError)
      | Some v =>
          if List.length v =? faiss.d (index w) then
            (set_memories (memories w ++ [JStr text])
               (set_index (faiss.mkIndex (faiss.d (index w))
                                         (faiss.xb (index w) ++ [v])) w1),
             Ok tt)
          else (w1, Raise AssertionError)
      end
  end.
Proof.
  unfold maybe_append_soul, bind, soul_append, encode, gets, lift, modify,
    after_log_write, soul_lines, faiss.add.
  destruct (SOUL_FILE w) eqn:Hs; simpl; try reflexivity;
    destruct (embed (JStr (entry_text prompt reply))) as [v |];
    simpl; try reflexivity;
    rewrite andb_true_r; destruct (List.length v =? faiss.d (index w));
    reflexivity.
Qed.

Lemma lstrip_keeps_last (l : list ascii) (c : ascii) :
  PyStr.isspace c = false -> PyStr.lstrip_chars (l ++ [c]) <> [].
Proof.
  intros Hc. induction l as [| a l IH]; simpl.
  - rewrite Hc. discriminate.
  - destruct (PyStr.isspace a); [exact IH | discriminate].
Qed.

Lemma strip_chars_head (c : ascii) (l : list ascii) :
  PyStr.isspace c = false -> PyStr.strip_chars (c :: l) <> [].
Proof.
  intros Hc. unfold PyStr.strip_chars. simpl. rewrite Hc. simpl.
  pose proof (@lstrip_keeps_last (rev l) c Hc) as Hne.
  intros Hrev. apply (f_equal (@rev ascii)) in Hrev.
  rewrite rev_involutive in Hrev. simpl in Hrev. contradiction.
Qed.

(** What [json.dumps] writes for an entry is never a blank line. *)
Lemma dumps_entry_not_blank (key value : string) :
  blank (Py.dumps_entry key value) = false.
Proof.
  unfold blank, PyStr.strip, Py.dumps_entry.
  cbn [append list_ascii_of_string].
  match goal with
  | |- context [PyStr.strip_chars (?c :: ?l)] =>
      pose proof (@strip_chars_head c l eq_refl) as Hne;
      destruct (PyStr.strip_chars (c :: l))
  end; [congruence | reflexivity].
Qed.

Lemma lstrip_chars_nil (l : list ascii) :
  PyStr.lstrip_chars l = [] <-> forallb PyStr.isspace l = true.
Proof.
  induction l as [| c l IH]; cbn [PyStr.lstrip_chars forallb].
  - tauto.
  - destruct (PyStr.isspace c); cbn [andb]; [exact IH |].
    split; discriminate.
Qed.

Lemma lstrip_chars_blank_prefix (t l : list ascii) :
  forallb PyStr.isspace t = true ->
  PyStr.lstrip_chars (t ++ l) = PyStr.lstrip_chars l.
Proof.
  induction t as [| c t IH]; cbn [forallb app PyStr.lstrip_chars];
    [reflexivity |].
  destruct (PyStr.isspace c); [exact IH | discriminate].
Qed.

Lemma strip_chars_nil (l : list ascii) :
  PyStr.strip_chars l = [] <-> forallb PyStr.isspace l = true.
Proof.
  rewrite <- lstrip_chars_nil. unfold PyStr.strip_chars. split.
  - intros H. destruct (PyStr.lstrip_chars l) as [| c r] eqn:Hl;
      [reflexivity |].
    assert (Hc : PyStr.isspace c = false).
    { destruct l as [| x l']; [discriminate |].
      revert Hl. clear. revert x.
      induction l' as [| y l' IH]; intros x; cbn [PyStr.lstrip_chars].
      - destruct (PyStr.isspace x) eqn:Hx; [discriminate |].
        intros H. injection H as <- _. exact Hx.
      - destruct (PyStr.isspace x) eqn:Hx.
        + apply IH.
        + intros H. injection H as <- _. exact Hx. }
    apply (f_equal (@rev ascii)) in H. rewrite rev_involutive in H.
    cbn [rev] in H.
    now destruct (@lstrip_keeps_last (rev r) c Hc).
  - intros ->. reflexivity.
Qed.

(** A line is blank exactly when all its characters are white space. *)
Lemma blank_spec (s : string) :
  blank s = forallb PyStr.isspace (list_ascii_of_string s).
Proof.
  unfold blank, PyStr.strip.
  destruct (forallb PyStr.isspace (list_ascii_of_string s)) eqn:Hall.
  - apply strip_chars_nil in Hall. now rewrite Hall.
  - destruct (PyStr.strip_chars (list_ascii_of_string s)) eqn:Hs;
      [| reflexivity].
    apply strip_chars_nil in Hs. congruence.
Qed.

(** Text written after a blank end of file reads as the text alone; text
    written after anything reads as a line that is not blank. *)
Lemma strip_after_blank (tail line : string) :
  blank tail = true ->
  PyStr.strip (tail ++ line) = PyStr.strip line.
Proof.
  rewrite blank_spec. intros Hb. unfold PyStr.strip, PyStr.strip_chars.
  rewrite list_ascii_app.
  now rewrite (lstrip_chars_blank_prefix _ _ Hb).
Qed.

Lemma blank_glued (tail line : string) :
  blank line = false -> blank (tail ++ line) = false.
Proof.
  rewrite !blank_spec, list_ascii_app, forallb_app.
  intros ->. apply andb_false_r.
Qed.

(** The records of a file once a line that is not blank is written. *)
Lemma records_after_write (pieces : list string) (line : string) :
  blank line = false ->
  filter (fun l => negb (blank l)) (write_line pieces line)
  = filter (fun l => negb (blank l)) (removelast pieces)
    ++ [(last pieces EmptyString ++ line)%string].
Proof.
  intros Hb. unfold write_line.
  rewrite filter_app. cbn [filter].
  rewrite (blank_glued _ _ Hb). reflexivity.
Qed.

Lemma records_before_write (pieces : list string) :
  filter (fun l => negb (blank l)) pieces
  = filter (fun l => negb (blank l)) (removelast pieces)
    ++ (if blank (last pieces EmptyString) then []
        else [last pieces EmptyString]).
Proof.
  destruct pieces as [| p ps]; [reflexivity |].
  rewrite (@app_removelast_last _ (p :: ps) EmptyString) at 1 by discriminate.
  rewrite filter_app. cbn [filter].
  destruct (blank (last (p :: ps) EmptyString)); reflexivity.
Qed.

(** The log after the write of an append: one record more when the file
    was terminated; otherwise the new record is glued to the last one and
    the number of records stays. *)
Lemma log_length_after_write (text : string) (w : World) :
  log_length (after_log_write text w)
  = if soul_terminated w then S (log_length w) else log_length w.
Proof.
  unfold log_length, log_records, after_log_write, soul_terminated.
  cbn [SOUL_FILE set_encode_calls set_SOUL_FILE].
  rewrite (records_after_write _ _ (dumps_entry_not_blank "text" text)).
  assert (Hold : match SOUL_FILE w with
                 | Data lines => filter (fun l => negb (blank l)) lines
                 | _ => []
                 end = filter (fun l => negb (blank l)) (soul_lines w)).
  { unfold soul_lines. destruct (SOUL_FILE w); reflexivity. }
  rewrite Hold, (records_before_write (soul_lines w)), !length_app.
  destruct (blank (last (soul_lines w) EmptyString)); cbn [List.length]; lia.
Qed.

(** After the write the file is terminated. *)
Lemma terminated_after_write (text : string) (w : World) :
  soul_terminated (after_log_write text w) = true.
Proof.
  unfold soul_terminated, after_log_write, soul_lines, write_line.
  cbn [SOUL_FILE set_encode_calls set_SOUL_FILE].
  match goal with
  | |- context [?l ++ [?a; EmptyString]] =>
      change (l ++ [a; EmptyString]) with (l ++ ([a] ++ [EmptyString]));
      rewrite (app_assoc l [a] [EmptyString]), last_last
  end.
  reflexivity.
Qed.

(** One append that completes, on a soul file that is terminated, keeps
    the store synchronized and the file terminated; the new vector sits at
    the position that was the size of the index, which is the ordinal of
    the new record. *)
Lemma append_keeps_synchronized (prompt reply : string) (w w' : World) :
  synchronized embed w ->
  soul_terminated w = true ->
  maybe_append_soul embed prompt reply w = (w', Ok tt) ->
  synchronized embed w'
  /\ soul_terminated w' = true
  /\ nth_error (memories w') (List.length (memories w))
     = Some (JStr (entry_text prompt reply))
  /\ exists v, embed (JStr (entry_text prompt reply)) = Some v
               /\ nth_error (faiss.xb (index w')) (faiss.ntotal (index w))
                  = Some v.
Proof.
  intros (Hn & Hlog & Hpos) Hterm Hrun.
  rewrite maybe_append_soul_unfold in Hrun. cbv zeta in Hrun.
  set (text := entry_text prompt reply) in *.
  assert (Hok : exists v, embed (JStr text) = Some v
            /\ w' = set_memories (memories w ++ [JStr text])
                      (set_index (faiss.mkIndex (faiss.d (index w))
                                    (faiss.xb (index w) ++ [v]))
                         (after_log_write text w))).
  { destruct (SOUL_FILE w); try discriminate;
      destruct (embed (JStr text)) as [v |]; try discriminate;
      destruct (List.length v =? faiss.d (index w)); try discriminate;
      injection Hrun as <-; eauto. }
  destruct Hok as (v & Hv & ->). clear Hrun.
  split; [| split].
  - unfold synchronized, faiss.ntotal in *.
    change (log_length (set_memories _ (set_index _ (after_log_write text w))))
      with (log_length (after_log_write text w)).
    rewrite log_length_after_write, Hterm.
    cbn [index memories set_memories set_index faiss.xb].
    repeat split.
    + rewrite !length_app. cbn [List.length]. lia.
    + rewrite length_app. cbn [List.length]. lia.
    + intros i t Hi.
      destruct (Nat.lt_ge_cases i (List.length (memories w))) as [Hlt | Hge].
      * rewrite nth_error_app1 in Hi by exact Hlt.
        destruct (Hpos i t Hi) as (u & Hu & Hnth).
        exists u. split; [exact Hu |].
        rewrite nth_error_app1 by lia. exact Hnth.
      * rewrite nth_error_app2 in Hi by exact Hge.
        destruct (i - List.length (memories w)) as [| j] eqn:Hd.
        -- cbn [nth_error] in Hi. injection Hi as <-.
           exists v. split; [exact Hv |].
           rewrite nth_error_app2 by lia.
           replace (i - List.length (faiss.xb (index w))) with 0 by lia.
           reflexivity.
        -- cbn [nth_error] in Hi. destruct j; discriminate.
  - change (soul_terminated
              (set_memories _ (set_index _ (after_log_write text w))))
      with (soul_terminated (after_log_write text w)).
    apply terminated_after_write.
  - unfold faiss.ntotal. cbn [index memories set_memories set_index faiss.xb].
    split.
    + rewrite nth_error_app2, Nat.sub_diag by lia. reflexivity.
    + exists v. split; [exact Hv |].
      rewrite nth_error_app2, Nat.sub_diag by lia. reflexivity.
Qed.



End AppendFacts.


(** C3, as amended (append under embedding failure).  When the embedder
    fails on the new text, [maybe_append_soul] raises after the log write
    and undoes nothing: the soul file has received the new line at its end,
    so the log holds one record more when the file was terminated (and
    never fewer records than before), while the live index, the in-memory
    texts and the two persisted files are exactly as before.  When the log
    write itself fails, nothing at all has changed and the embedder was not
    called: the index is never touched before the log write has
    succeeded. *)
Theorem append_embedding_failure
        (embed : pyval -> option faiss.Vec) (prompt reply : string) (w : World) :
  embed (JStr (entry_text prompt reply)) = None ->
  let text := entry_text prompt reply in
  let w' := fst (maybe_append_soul embed prompt reply w) in
  (SOUL_FILE w = Locked ->
   maybe_append_soul embed prompt reply w = (w, Raise OSError))
  /\ (SOUL_FILE w <> Locked ->
      maybe_append_soul embed prompt reply w
      = (after_log_write text w, Raise EmbedError)
      /\ SOUL_FILE w'
         = Data (write_line (soul_lines w) (Py.dumps_entry "text" text))
      /\ (soul_terminated w = true -> log_length w' = S (log_length w))
      /\ log_length w <= log_length w' <= S (log_length w)
      /\ index w' = index w
      /\ memories w' = memories w
      /\ INDEX_FILE w' = INDEX_FILE w
      /\ IDMAP_FILE w' = IDMAP_FILE w).
Proof.
  intros Hfail text w'. subst w' text.
  rewrite maybe_append_soul_unfold. cbv zeta. rewrite Hfail.
  set (text := entry_text prompt reply).
  split.
  - intros ->. reflexivity.
  - intros Hopen.
    assert (Hrun : match SOUL_FILE w with
                   | Locked => (w, Raise OSError)
                   | _ => (after_log_write text w, @Raise unit EmbedError)
                   end = (after_log_write text w, Raise EmbedError))
      by (destruct (SOUL_FILE w); congruence).
    rewrite Hrun. cbn [fst].
    pose proof (log_length_after_write text w) as Hlen.
    split; [reflexivity |]. split; [reflexivity |].
    split; [intros Hterm; now rewrite Hlen, Hterm |].
    split; [destruct (soul_terminated w); lia |].
    repeat split.
Qed.

(* ===================================================================== *)
(** ** Retrieval: [retrieve_memories] *)
(* ===================================================================== *)

(** C8 (empty-store short-circuit).  When the store holds no memories,
    [retrieve_memories] returns the empty list for every query and every
    [k], and leaves the world as it was: in particular no batch was handed
    to the embedder. *)
Theorem retrieve_on_empty_store
        (embed : pyval -> option faiss.Vec) (query : string) (k : Z) (w : World) :
  memories w = [] ->
  retrieve_memories embed query k w = (w, Ok [])
  /\ encode_calls (fst (retrieve_memories embed query k w)) = encode_calls w.
Proof.
  intros Hmem. unfold retrieve_memories, bind, gets. rewrite Hmem.
  split; reflexivity.
Qed.

(** The upper half of the bound check works: a label at or above the
    number of memories is skipped. *)
Lemma select_skips_high {A : Type} (l : list A) (i : Z) (rest : list Z) :
  (Z.of_nat (List.length l) <= i)%Z ->
  Py.select l (i :: rest) = Py.select l rest.
Proof.
  intros Hi. simpl.
  destruct (i <? Z.of_nat (List.length l))%Z eqn:Hlt; [| reflexivity].
  apply Z.ltb_lt in Hlt. lia.
Qed.

(** The lower half is missing: the padding label [-1] passes the test
    [i < len(memories)] and indexes the last memory. *)
Lemma select_padding_label {A : Type} (l : list A) (x : A) :
  Py.select (l ++ [x]) [(-1)%Z] = Ok [x].
Proof.
  unfold Py.select, Py.getitem.
  rewrite length_app. simpl List.length.
  replace (Z.of_nat (List.length l + 1)) with (Z.of_nat (List.length l) + 1)%Z
    by lia.
  destruct (-1 <? Z.of_nat (List.length l) + 1)%Z eqn:Hlt;
    [| apply Z.ltb_ge in Hlt; lia].
  change (-1 <? 0)%Z with true. cbv iota.
  replace (-1 + (Z.of_nat (List.length l) + 1))%Z
    with (Z.of_nat (List.length l)) by lia.
  destruct (Z.of_nat (List.length l) <? 0)%Z eqn:Hneg;
    [apply Z.ltb_lt in Hneg; lia |].
  rewrite Nat2Z.id, nth_error_app2, Nat.sub_diag by lia. reflexivity.
Qed.

(** [search] returns exactly [k] labels. *)
Lemma search_length (ix : faiss.Index) (q : faiss.Vec) (k : Z) (I : list Z) :
  faiss.search ix q k = Ok I -> List.length I = Z.to_nat k.
Proof.
  unfold faiss.search.
  destruct (negb _); [discriminate |].
  destruct (k <=? 0)%Z; [discriminate |].
  intros H. injection H as <-.
  rewrite length_app, repeat_length.
  pose proof (firstn_le_length (Z.to_nat k)
                (map fst (faiss.ranked ix q))) as Hle.
  lia.
Qed.

Lemma select_length {A : Type} (l : list A) (I : list Z) (out : list A) :
  Py.select l I = Ok out -> List.length out <= List.length I.
Proof.
  revert out. induction I as [| i rest IH]; intros out H; simpl in H.
  - injection H as <-. simpl. lia.
  - destruct (i <? Z.of_nat (List.length l))%Z.
    + destruct (Py.getitem l i); [| discriminate].
      destruct (Py.select l rest) as [xs |]; [| discriminate].
      injection H as <-. simpl. specialize (IH xs eq_refl). lia.
    + specialize (IH out H). simpl. lia.
Qed.

(** The half of the k-bound that the code keeps: never more than [k]
    results. *)
Lemma retrieve_at_most_k
      (embed : pyval -> option faiss.Vec) (query : string) (k : Z)
      (w w' : World) (out : list pyval) :
  retrieve_memories embed query k w = (w', Ok out) ->
  (Z.of_nat (List.length out) <= Z.max k 0)%Z.
Proof.
  unfold retrieve_memories, bind, gets, encode, lift.
  destruct (memories w) as [| m ms] eqn:Hmem.
  - intros H. injection H as _ <-. simpl. lia.
  - destruct (embed_all embed [JStr query]) as [qv |]; [| discriminate].
    cbn [index memories set_encode_calls].
    destruct (faiss.search (index w) (hd [] qv) k) as [I |] eqn:Hs;
      [| discriminate].
    rewrite Hmem.
    destruct (Py.select (m :: ms) I) as [xs |] eqn:Hsel; [| discriminate].
    intros H. injection H as _ <-.
    apply select_length in Hsel. apply search_length in Hs. lia.
Qed.

(* ===================================================================== *)
(** ** Startup: [_rebuild_index], [_load_or_build_index] *)
(* ===================================================================== *)

Section StartupFacts.

Variable json_loads : string -> result json.
Variable embed : pyval -> option faiss.Vec.

(** Looking for a reusable index never changes the world. *)
Lemma try_reuse_world (texts : list pyval) (w : World) :
  fst (try_reuse json_loads texts w) = w.
Proof.
  unfold try_reuse, bind, gets, load_idmap, lift, read_index, ret.
  destruct (exists_ (INDEX_FILE w) && exists_ (IDMAP_FILE w)); [| reflexivity].
  destruct (IDMAP_FILE w) as [| | s]; try reflexivity.
  destruct (json_loads s) as [v | e]; [| reflexivity].
  destruct (Py.len v) as [n | e]; [| reflexivity].
  destruct (n =? List.length texts); [| reflexivity].
  destruct (INDEX_FILE w) as [| | [ix |]]; reflexivity.
Qed.

Lemma load_or_build_unfold (texts : list pyval) (w : World) :
  _load_texts json_loads w = (w, Ok texts) ->
  _load_or_build_index json_loads embed w =
  match snd (try_reuse json_loads texts w) with
  | Ok (Some ix) => (w, Ok (ix, texts))
  | Ok None => rebuild_and_return embed texts w
  | Raise e => (w, Raise e)
  end.
Proof.
  intros Hload. unfold _load_or_build_index, bind at 1. rewrite Hload.
  unfold bind at 1.
  pose proof (try_reuse_world texts w) as Hw.
  destruct (try_reuse json_loads texts w) as [w1 [[ix |] | e]];
    simpl in Hw; subst w1; reflexivity.
Qed.

(** The outcome of the two nested tests, case by case. *)
Lemma try_reuse_absent (texts : list pyval) (w : World) :
  exists_ (INDEX_FILE w) = false \/ exists_ (IDMAP_FILE w) = false ->
  try_reuse json_loads texts w = (w, Ok None).
Proof.
  intros H. unfold try_reuse, bind, gets.
  destruct H as [-> | ->]; [| rewrite andb_false_r]; reflexivity.
Qed.

Lemma try_reuse_present (texts : list pyval) (w : World) (s : string) :
  exists_ (INDEX_FILE w) = true ->
  IDMAP_FILE w = Data s ->
  try_reuse json_loads texts w =
  match json_loads s with
  | Raise e => (w, Raise e)
  | Ok id_map =>
      match Py.len id_map with
      | Raise e => (w, Raise e)
      | Ok n =>
          if n =? List.length texts then
            match INDEX_FILE w with
            | Data (faiss.Serialized ix) => (w, Ok (Some ix))
            | _ => (w, Raise RuntimeError)
            end
          else (w, Ok None)
      end
  end.
Proof.
  intros Hi Hm.
  unfold try_reuse, bind, gets, load_idmap, lift, read_index, ret.
  rewrite Hi, Hm. simpl. rewrite ?Hm.
  destruct (json_loads s) as [v | e]; [| reflexivity].
  destruct (Py.len v) as [n | e]; [| reflexivity].
  destruct (n =? List.length texts); [| reflexivity].
  destruct (INDEX_FILE w) as [| | [ix |]]; reflexivity.
Qed.

Lemma try_reuse_locked (texts : list pyval) (w : World) :
  exists_ (INDEX_FILE w) = true ->
  IDMAP_FILE w = Locked ->
  try_reuse json_loads texts w = (w, Raise OSError).
Proof.
  intros Hi Hm. unfold try_reuse, bind, gets, load_idmap.
  rewrite Hi, Hm. simpl. rewrite Hm. reflexivity.
Qed.

End StartupFacts.

Section RebuildFacts.

Variable embed : pyval -> option faiss.Vec.

Lemma embed_all_nth (texts : list pyval) : forall emb,
  embed_all embed texts = Some emb ->
  List.length emb = List.length texts
  /\ forall (i : nat) (t : pyval),
       nth_error texts i = Some t ->
       exists v, embed t = Some v /\ nth_error emb i = Some v.
Proof.
  induction texts as [| t0 rest IH]; intros emb H; simpl in H.
  - injection H as <-. split; [reflexivity |].
    intros i t Hi. destruct i; discriminate.
  - destruct (embed t0) as [v0 |] eqn:Hv0; [| discriminate].
    destruct (embed_all embed rest) as [vs |]; [| discriminate].
    injection H as <-. destruct (IH vs eq_refl) as (Hlen & Hnth).
    split; [simpl; congruence |].
    intros [| i] t Hi; simpl in *.
    + injection Hi as <-. eauto.
    + auto.
Qed.

(** A rebuild over texts that all embed, to vectors of one width, with
    files that can be written: the index holds the embeddings in log order
    and both files are written. *)
Lemma rebuild_result (texts : list pyval) (emb : list faiss.Vec) (w : World) :
  texts <> [] ->
  embed_all embed texts = Some emb ->
  forallb (fun v => List.length v =? shape1 emb) emb = true ->
  INDEX_FILE w <> Locked ->
  IDMAP_FILE w <> Locked ->
  let ix := faiss.mkIndex (shape1 emb) emb in
  _rebuild_index embed texts w
  = (set_IDMAP_FILE (Data (Py.dumps_range (List.length texts)))
       (set_INDEX_FILE (Data (faiss.Serialized ix))
          (set_encode_calls (encode_calls w ++ [texts]) w)),
     Ok ix).
Proof.
  intros Hne Hemb Hwidth Hi Hm ix.
  destruct texts as [| t rest]; [congruence |].
  unfold _rebuild_index, bind, encode, lift, write_index, dump_idmap, ret,
    faiss.add.
  rewrite Hemb. cbn [faiss.IndexFlatIP faiss.d faiss.xb]. rewrite Hwidth.
  subst ix. simpl.
  destruct (INDEX_FILE w) eqn:Hif; try congruence; simpl;
    destruct (IDMAP_FILE w) eqn:Hmf; try congruence; reflexivity.
Qed.

End RebuildFacts.

(** A start that rebuilds (nothing usable is persisted) over a log that is
    not empty leaves a synchronized store whose texts are the log. *)
Lemma startup_rebuild_synchronized
      (json_loads : string -> result json)
      (embed : pyval -> option faiss.Vec)
      (w : World) (texts : list pyval) (emb : list faiss.Vec) :
  _load_texts json_loads w = (w, Ok texts) ->
  texts <> [] ->
  exists_ (INDEX_FILE w) = false \/ exists_ (IDMAP_FILE w) = false ->
  embed_all embed texts = Some emb ->
  forallb (fun v => List.length v =? shape1 emb) emb = true ->
  INDEX_FILE w <> Locked ->
  IDMAP_FILE w <> Locked ->
  exists w',
    startup json_loads embed w = (w', Ok tt)
    /\ synchronized embed w'
    /\ memories w' = texts
    /\ index w' = faiss.mkIndex (shape1 emb) emb.
Proof.
  intros Hload Hne Habs Hemb Hwidth Hi Hm.
  unfold startup, bind.
  rewrite (@load_or_build_unfold json_loads embed texts w Hload).
  rewrite try_reuse_absent by exact Habs. cbn [snd].
  unfold rebuild_and_return, bind.
  rewrite (@rebuild_result embed texts emb w Hne Hemb Hwidth Hi Hm).
  unfold ret, modify. cbn [fst snd].
  eexists. split; [reflexivity |].
  destruct (embed_all_nth embed texts Hemb) as (Hlen & Hnth).
  split; [| split; reflexivity].
  unfold synchronized, faiss.ntotal.
  cbn [index memories set_memories set_index faiss.xb].
  repeat split.
  - exact Hlen.
  - rewrite (@load_texts_length json_loads w texts Hload).
    unfold log_length, log_records. reflexivity.
  - exact Hnth.
Qed.

(** The nested tests return an index only from inside both of them. *)
Lemma try_reuse_some
      (json_loads : string -> result json)
      (texts : list pyval) (w : World) (ix : faiss.Index) :
  snd (try_reuse json_loads texts w) = Ok (Some ix) ->
  INDEX_FILE w = Data (faiss.Serialized ix)
  /\ exists s id_map,
       IDMAP_FILE w = Data s /\ json_loads s = Ok id_map
       /\ Py.len id_map = Ok (List.length texts).
Proof.
  intros H.
  destruct (exists_ (INDEX_FILE w)) eqn:Hi;
    [| rewrite try_reuse_absent in H by (now left); discriminate].
  destruct (IDMAP_FILE w) as [| | s] eqn:Hm.
  - rewrite try_reuse_absent in H by (right; now rewrite Hm). discriminate.
  - rewrite try_reuse_locked in H by assumption. discriminate.
  - rewrite (@try_reuse_present json_loads texts w s) in H by assumption.
    destruct (json_loads s) as [v |] eqn:Hs; [| discriminate].
    destruct (Py.len v) as [n |] eqn:Hlen; [| discriminate].
    destruct (n =? List.length texts) eqn:Hn; [| discriminate].
    apply Nat.eqb_eq in Hn. subst n.
    destruct (INDEX_FILE w) as [| | [ix' |]]; try discriminate.
    cbn [snd] in H. split; [congruence | eauto].
Qed.

(** The last line of [_load_or_build_index] leaves the world that
    [_rebuild_index] leaves. *)
Lemma rebuild_and_return_world
      (embed : pyval -> option faiss.Vec) (texts : list pyval) (w : World) :
  fst (rebuild_and_return embed texts w) = fst (_rebuild_index embed texts w).
Proof.
  unfold rebuild_and_return, bind, ret.
  destruct (_rebuild_index embed texts w) as [w1 [ix | e]]; reflexivity.
Qed.

(** C2, as amended (startup reuse decision).  Let the log load to [texts].

    - Reuse.  When both files exist and the decoded IdMap is as long as the
      texts, [_load_or_build_index] rebuilds nothing and leaves the world
      untouched (no call to the embedder, no file written): it returns the
      index that the index file holds, with the texts, and when the index
      file does not hold an index it raises.
    - Only then.  Over a log that is not empty, a return without a call
      to the embedder comes from that branch: both files exist, the IdMap
      decodes to the length of the texts, and the index returned is the
      one the index file holds.
    - Rebuild.  When a file is absent, or the decoded IdMap has another
      length, the index is built again from the texts: over no text the
      1-dimensional index is returned and nothing else happens; over texts
      the embedder is called once, on all of them in log order, and when
      they embed to vectors of one width and the two files can be written,
      the index returned holds exactly these vectors in log order, and it
      and the IdMap of the new length replace what was persisted. *)
Theorem startup_reuse_decision
        (json_loads : string -> result json)
        (embed : pyval -> option faiss.Vec) (w : World) (texts : list pyval) :
  _load_texts json_loads w = (w, Ok texts) ->
  (forall s id_map,
      exists_ (INDEX_FILE w) = true ->
      IDMAP_FILE w = Data s ->
      json_loads s = Ok id_map ->
      Py.len id_map = Ok (List.length texts) ->
      _load_or_build_index json_loads embed w
      = (w, match INDEX_FILE w with
            | Data (faiss.Serialized ix) => Ok (ix, texts)
            | _ => Raise RuntimeError
            end))
  /\ (forall w' ix texts',
      texts <> [] ->
      _load_or_build_index json_loads embed w = (w', Ok (ix, texts')) ->
      encode_calls w' = encode_calls w ->
      w' = w /\ texts' = texts
      /\ INDEX_FILE w = Data (faiss.Serialized ix)
      /\ exists s id_map,
           IDMAP_FILE w = Data s /\ json_loads s = Ok id_map
           /\ Py.len id_map = Ok (List.length texts))
  /\ (exists_ (INDEX_FILE w) = false
      \/ exists_ (IDMAP_FILE w) = false
      \/ (exists s id_map n,
             exists_ (INDEX_FILE w) = true /\ IDMAP_FILE w = Data s
             /\ json_loads s = Ok id_map /\ Py.len id_map = Ok n
             /\ n <> List.length texts) ->
      (texts = [] ->
       _load_or_build_index json_loads embed w
       = (w, Ok (faiss.IndexFlatIP 1, [])))
      /\ (texts <> [] ->
          encode_calls (fst (_load_or_build_index json_loads embed w))
          = encode_calls w ++ [texts])
      /\ (forall emb,
          texts <> [] ->
          embed_all embed texts = Some emb ->
          forallb (fun v => List.length v =? shape1 emb) emb = true ->
          INDEX_FILE w <> Locked ->
          IDMAP_FILE w <> Locked ->
          let ix := faiss.mkIndex (shape1 emb) emb in
          _load_or_build_index json_loads embed w
          = (set_IDMAP_FILE (Data (Py.dumps_range (List.length texts)))
               (set_INDEX_FILE (Data (faiss.Serialized ix))
                  (set_encode_calls (encode_calls w ++ [texts]) w)),
             Ok (ix, texts))
          /\ faiss.ntotal ix = List.length texts
          /\ forall (i : nat) (t : pyval),
               nth_error texts i = Some t ->
               exists v, embed t = Some v
                         /\ nth_error (faiss.xb ix) i = Some v)).
Proof.
  intros Hload. split; [| split].
  - intros s id_map Hi Hm Hs Hn.
    rewrite (@load_or_build_unfold json_loads embed texts w Hload).
    rewrite (@try_reuse_present json_loads texts w s), Hs, Hn by assumption.
    rewrite Nat.eqb_refl.
    destruct (INDEX_FILE w) as [| | [ix |]]; reflexivity.
  - intros w' ix texts' Hne Hrun Hcalls.
    rewrite (@load_or_build_unfold json_loads embed texts w Hload) in Hrun.
    destruct (snd (try_reuse json_loads texts w)) as [[ix0 |] | e] eqn:Hreuse.
    + injection Hrun as <- <- <-.
      split; [reflexivity |]. split; [reflexivity |].
      exact (@try_reuse_some json_loads texts w ix0 Hreuse).
    + exfalso.
      pose proof (rebuild_and_return_world embed texts w) as Hw.
      rewrite Hrun in Hw. cbn [fst] in Hw.
      pose proof (@rebuild_encodes_all embed texts w Hne) as Henc.
      rewrite <- Hw, Hcalls in Henc.
      apply (f_equal (@List.length (list pyval))) in Henc.
      rewrite length_app in Henc. simpl in Henc. lia.
    + discriminate.
  - intros Hmust.
    assert (Hfall : _load_or_build_index json_loads embed w
                    = rebuild_and_return embed texts w).
    { rewrite (@load_or_build_unfold json_loads embed texts w Hload).
      destruct Hmust as [Habs | [Habs | (s & id_map & n & Hi & Hm & Hs & Hn & Hneq)]].
      - rewrite try_reuse_absent by (now left). reflexivity.
      - rewrite try_reuse_absent by (now right). reflexivity.
      - rewrite (@try_reuse_present json_loads texts w s), Hs, Hn
          by assumption.
        apply Nat.eqb_neq in Hneq. rewrite Hneq. reflexivity. }
    rewrite Hfall. split; [| split].
    + intros ->. reflexivity.
    + intros Hne. rewrite rebuild_and_return_world.
      now apply rebuild_encodes_all.
    + intros emb Hne Hemb Hwidth Hi Hm ix.
      unfold rebuild_and_return, bind.
      rewrite (@rebuild_result embed texts emb w Hne Hemb Hwidth Hi Hm).
      destruct (embed_all_nth embed texts Hemb) as (Hlen & Hnth).
      split; [reflexivity |]. split; [exact Hlen | exact Hnth].
Qed.

(** C6, as amended (failures on the reuse path).  [_load_or_build_index]
    has no handler: with the log loaded and the index file present, an
    IdMap file that cannot be opened or decoded, or that decodes to a value
    without a length, makes it raise, and so does an index file that cannot
    be deserialized when the IdMap length matches.  The exception reaches
    the caller, with the world untouched: nothing is rebuilt. *)
Theorem reuse_failure_propagates
        (json_loads : string -> result json)
        (embed : pyval -> option faiss.Vec) (w : World) (texts : list pyval) :
  _load_texts json_loads w = (w, Ok texts) ->
  exists_ (INDEX_FILE w) = true ->
  (forall s e,
      IDMAP_FILE w = Data s -> json_loads s = Raise e ->
      _load_or_build_index json_loads embed w = (w, Raise e))
  /\ (IDMAP_FILE w = Locked ->
      _load_or_build_index json_loads embed w = (w, Raise OSError))
  /\ (forall s id_map e,
      IDMAP_FILE w = Data s -> json_loads s = Ok id_map ->
      Py.len id_map = Raise e ->
      _load_or_build_index json_loads embed w = (w, Raise e))
  /\ (forall s id_map,
      IDMAP_FILE w = Data s -> json_loads s = Ok id_map ->
      Py.len id_map = Ok (List.length texts) ->
      INDEX_FILE w = Data faiss.Garbage \/ INDEX_FILE w = Locked ->
      _load_or_build_index json_loads embed w = (w, Raise RuntimeError)).
Proof.
  intros Hload Hi. repeat split.
  - intros s e Hm Hs.
    rewrite (@load_or_build_unfold json_loads embed texts w Hload).
    rewrite (@try_reuse_present json_loads texts w s), Hs by assumption.
    reflexivity.
  - intros Hm.
    rewrite (@load_or_build_unfold json_loads embed texts w Hload).
    rewrite try_reuse_locked by assumption. reflexivity.
  - intros s id_map e Hm Hs Hn.
    rewrite (@load_or_build_unfold json_loads embed texts w Hload).
    rewrite (@try_reuse_present json_loads texts w s), Hs, Hn by assumption.
    reflexivity.
  - intros s id_map Hm Hs Hn Hbad.
    rewrite (@load_or_build_unfold json_loads embed texts w Hload).
    rewrite (@try_reuse_present json_loads texts w s), Hs, Hn by assumption.
    rewrite Nat.eqb_refl. destruct Hbad as [-> | ->]; reflexivity.
Qed.

(** C7, as amended (rebuild of an empty log).  On zero texts
    [_rebuild_index] returns a new 1-dimensional index holding no vector
    and returns at once: the embedder is not called and nothing is written,
    so the index file and the IdMap file are as they were before. *)
Theorem rebuild_of_empty_log
        (embed : pyval -> option faiss.Vec) (w : World) :
  _rebuild_index embed [] w = (w, Ok (faiss.IndexFlatIP 1))
  /\ faiss.d (faiss.IndexFlatIP 1) = 1
  /\ faiss.ntotal (faiss.IndexFlatIP 1) = 0
  /\ INDEX_FILE (fst (_rebuild_index embed [] w)) = INDEX_FILE w
  /\ IDMAP_FILE (fst (_rebuild_index embed [] w)) = IDMAP_FILE w
  /\ encode_calls (fst (_rebuild_index embed [] w)) = encode_calls w.
Proof.
  repeat split.
Qed.

Example two_memories_state :
  memories Demo.two_memories
  = [JStr "the sea remembers"; JStr "remember the lighthouse"]
  /\ index Demo.two_memories = faiss.mkIndex 2 [[17%Q; 1%Q]; [23%Q; 1%Q]]
  /\ INDEX_FILE Demo.two_memories
     = Data (faiss.Serialized (index Demo.two_memories))
  /\ IDMAP_FILE Demo.two_memories = Data "[0, 1]".
Proof. vm_compute. repeat split. Qed.

Example mixed_soul_loads :
  _load_texts RefJson.loads Demo.mixed_soul
  = (Demo.mixed_soul,
     Ok [JStr "the sea remembers"; JStr "remember the lighthouse";
         JStr EmptyString]).
Proof. vm_compute. reflexivity. Qed.

Lemma two_memories_synchronized : synchronized Demo.embed Demo.two_memories.
Proof.
  repeat split.
  intros [| [| i]] t H; vm_compute in H;
    [ | | destruct i; discriminate ];
    injection H as <-; eexists; split; reflexivity.
Qed.

Lemma two_memories_synchronized_short :
  synchronized Demo.embed_short Demo.two_memories.
Proof.
  repeat split.
  intros [| [| i]] t H; vm_compute in H;
    [ | | destruct i; discriminate ];
    injection H as <-; eexists; split; reflexivity.
Qed.

(* ===================================================================== *)
(** ** The properties on concrete stores *)
(* ===================================================================== *)

(** An append completes exactly when the soul file can be opened, the
    embedder returns a vector, and the vector has the width of the index. *)
Lemma append_completes_iff
      (embed : pyval -> option faiss.Vec) (prompt reply : string) (w : World) :
  snd (maybe_append_soul embed prompt reply w) = Ok tt
  <-> SOUL_FILE w <> Locked
      /\ exists v, embed (JStr (entry_text prompt reply)) = Some v
                   /\ List.length v = faiss.d (index w).
Proof.
  rewrite maybe_append_soul_unfold. cbv zeta.
  destruct (embed (JStr (entry_text prompt reply))) as [v |] eqn:Hv.
  - destruct (List.length v =? faiss.d (index w)) eqn:Hd.
    + apply Nat.eqb_eq in Hd.
      destruct (SOUL_FILE w); simpl; split; try discriminate;
        try (intros _; split; [discriminate | eauto]);
        try (intros (Hopen & _); congruence); auto.
    + apply Nat.eqb_neq in Hd.
      destruct (SOUL_FILE w); simpl; split; try discriminate;
        intros (_ & u & Hu & Hlen); congruence.
  - destruct (SOUL_FILE w); simpl; split; try discriminate;
      intros (_ & u & Hu & _); discriminate.
Qed.

(** On a store started on nothing the index is the 1-dimensional dummy:
    the first append writes the log, then the index refuses the vector. *)
Example fresh_store_first_append :
  index Demo.fresh = faiss.IndexFlatIP 1
  /\ snd (maybe_append_soul Demo.embed "ping" "pong" Demo.fresh)
     = Raise AssertionError
  /\ log_length (fst (maybe_append_soul Demo.embed "ping" "pong" Demo.fresh))
     = 1.
Proof. vm_compute. repeat split. Qed.


Lemma startup_reuse_decision_witness :
  _load_texts RefJson.loads Demo.restart
  = (Demo.restart, Ok (memories Demo.two_memories))
  /\ exists_ (INDEX_FILE Demo.restart) = true
  /\ _load_or_build_index RefJson.loads Demo.embed Demo.restart
     = (Demo.restart,
        match INDEX_FILE Demo.restart with
        | Data (faiss.Serialized ix) => Ok (ix, memories Demo.two_memories)
        | _ => Raise RuntimeError
        end).
Proof.
  assert (Hload : _load_texts RefJson.loads Demo.restart
                  = (Demo.restart, Ok (memories Demo.two_memories)))
    by (vm_compute; reflexivity).
  split; [exact Hload |].
  split; [vm_compute; reflexivity |].
  apply (proj1 (@startup_reuse_decision RefJson.loads Demo.embed Demo.restart
                  (memories Demo.two_memories) Hload)
           "[0, 1]" (JArr [JNum "0"; JNum "1"]));
    vm_compute; reflexivity.
Defined.

Lemma append_embedding_failure_witness :
  Demo.embed_short (JStr (entry_text "ping" "pong")) = None
  /\ maybe_append_soul Demo.embed_short "ping" "pong" Demo.two_memories
     = (after_log_write (entry_text "ping" "pong") Demo.two_memories,
        Raise EmbedError).
Proof.
  assert (Hfail : Demo.embed_short (JStr (entry_text "ping" "pong")) = None)
    by (vm_compute; reflexivity).
  split; [exact Hfail |].
  apply (proj2 (@append_embedding_failure Demo.embed_short "ping" "pong"
                  Demo.two_memories Hfail)).
  vm_compute. discriminate.
Defined.

Lemma reuse_failure_propagates_witness :
  exists_ (INDEX_FILE Demo.restart_bad_idmap) = true
  /\ _load_or_build_index RefJson.loads Demo.embed Demo.restart_bad_idmap
     = (Demo.restart_bad_idmap, Raise JSONDecodeError).
Proof.
  assert (Hload : _load_texts RefJson.loads Demo.restart_bad_idmap
                  = (Demo.restart_bad_idmap, Ok (memories Demo.two_memories)))
    by (vm_compute; reflexivity).
  assert (Hi : exists_ (INDEX_FILE Demo.restart_bad_idmap) = true)
    by (vm_compute; reflexivity).
  split; [exact Hi |].
  apply (proj1 (@reuse_failure_propagates RefJson.loads Demo.embed
                  Demo.restart_bad_idmap (memories Demo.two_memories)
                  Hload Hi) "[0, 1" JSONDecodeError);
    vm_compute; reflexivity.
Defined.

Lemma retrieve_on_empty_store_witness :
  memories Demo.fresh = []
  /\ retrieve_memories Demo.embed "anything" 5 Demo.fresh = (Demo.fresh, Ok []).
Proof.
  assert (Hmem : memories Demo.fresh = []) by (vm_compute; reflexivity).
  split; [exact Hmem |].
  exact (proj1 (@retrieve_on_empty_store Demo.embed "anything" 5%Z
                  Demo.fresh Hmem)).
Defined.

Lemma malformed_line_kept_witness :
  blank Demo.line_raw = false
  /\ RefJson.loads (PyStr.strip Demo.line_raw) = Raise JSONDecodeError
  /\ _load_texts RefJson.loads Demo.mixed_soul
     = (Demo.mixed_soul,
        Ok ([JStr "the sea remembers"]
              ++ JStr "remember the lighthouse" :: [JStr EmptyString])).
Proof.
  assert (Hblank : blank Demo.line_raw = false) by (vm_compute; reflexivity).
  assert (Hbad : RefJson.loads (PyStr.strip Demo.line_raw)
                 = Raise JSONDecodeError) by (vm_compute; reflexivity).
  split; [exact Hblank | split; [exact Hbad |]].
  change (JStr "remember the lighthouse") with (JStr (PyStr.strip Demo.line_raw)).
  apply (@malformed_line_kept RefJson.loads Demo.mixed_soul
           [Demo.line_sea] [Demo.line_blank; Demo.line_obj] Demo.line_raw
           [JStr "the sea remembers"] [JStr EmptyString]);
    try assumption; vm_compute; reflexivity.
Defined.

Lemma object_without_text_is_empty_record_witness :
  RefJson.loads (PyStr.strip Demo.line_obj) = Ok (JObj [])
  /\ _load_texts RefJson.loads Demo.mixed_soul
     = (Demo.mixed_soul,
        Ok ([JStr "the sea remembers"; JStr "remember the lighthouse"]
              ++ JStr EmptyString :: [])).
Proof.
  assert (Hobj : RefJson.loads (PyStr.strip Demo.line_obj) = Ok (JObj []))
    by (vm_compute; reflexivity).
  split; [exact Hobj |].
  apply (@object_without_text_is_empty_record RefJson.loads Demo.embed
           Demo.mixed_soul
           [Demo.line_sea; Demo.line_raw; Demo.line_blank] [] Demo.line_obj
           [] [JStr "the sea remembers"; JStr "remember the lighthouse"] []);
    try assumption; vm_compute; reflexivity.
Defined.

(** C3, the claim as stated fails: on a synchronized store of two records,
    with a soul file that can be written and an embedder that fails on the
    new text, the append raises and leaves three records in the log against
    two vectors and two in-memory texts. *)
Lemma append_leaves_log_ahead :
  synchronized Demo.embed_short Demo.two_memories
  /\ SOUL_FILE Demo.two_memories <> Locked
  /\ Demo.embed_short (JStr (entry_text "ping" "pong")) = None
  /\ snd (maybe_append_soul Demo.embed_short "ping" "pong" Demo.two_memories)
     = Raise EmbedError
  /\ log_length
       (fst (maybe_append_soul Demo.embed_short "ping" "pong" Demo.two_memories))
     = 3
  /\ faiss.ntotal
       (index
          (fst (maybe_append_soul Demo.embed_short "ping" "pong"
                  Demo.two_memories)))
     = 2
  /\ ~ synchronized Demo.embed_short
         (fst (maybe_append_soul Demo.embed_short "ping" "pong"
                 Demo.two_memories)).
Proof.
  split; [exact two_memories_synchronized_short |].
  split; [vm_compute; discriminate |].
  repeat (split; [vm_compute; reflexivity |]).
  intros (Hn & Hlog & _). vm_compute in Hlog. discriminate.
Qed.


(** C2, the claim as stated fails: both files exist and the IdMap decodes
    to the length of the log, yet [_load_or_build_index] does not return
    the persisted index: the index file does not hold one, and the read
    raises. *)
Lemma reuse_needs_readable_index :
  _load_texts RefJson.loads Demo.restart_bad_index
  = (Demo.restart_bad_index, Ok (memories Demo.two_memories))
  /\ exists_ (INDEX_FILE Demo.restart_bad_index) = true
  /\ IDMAP_FILE Demo.restart_bad_index = Data "[0, 1]"
  /\ RefJson.loads "[0, 1]" = Ok (JArr [JNum "0"; JNum "1"])
  /\ Py.len (JArr [JNum "0"; JNum "1"])
     = Ok (List.length (memories Demo.two_memories))
  /\ _load_or_build_index RefJson.loads Demo.embed Demo.restart_bad_index
     = (Demo.restart_bad_index, Raise RuntimeError).
Proof. vm_compute. repeat split. Qed.

(** C6, the claim as stated fails: with an IdMap file cut short, and with
    an index file that is not an index, the start raises instead of
    rebuilding. *)
Lemma corrupt_persisted_state_is_fatal :
  exists_ (IDMAP_FILE Demo.restart_bad_idmap) = true
  /\ _load_or_build_index RefJson.loads Demo.embed Demo.restart_bad_idmap
     = (Demo.restart_bad_idmap, Raise JSONDecodeError)
  /\ exists_ (INDEX_FILE Demo.restart_bad_index) = true
  /\ _load_or_build_index RefJson.loads Demo.embed Demo.restart_bad_index
     = (Demo.restart_bad_index, Raise RuntimeError).
Proof. vm_compute. repeat split. Qed.

(** C7, the claim as stated fails: a start on an empty memory directory
    rebuilds over zero texts and leaves no index file and no IdMap file. *)
Lemma empty_rebuild_persists_nothing :
  startup RefJson.loads Demo.embed (Demo.boot Absent Absent Absent)
  = (Demo.fresh, Ok tt)
  /\ index Demo.fresh = faiss.IndexFlatIP 1
  /\ exists_ (INDEX_FILE Demo.fresh) = false
  /\ exists_ (IDMAP_FILE Demo.fresh) = false.
Proof. vm_compute. repeat split. Qed.

(** C4, the code at a store of one memory with [k = 5]: the search pads
    its four missing labels with [-1], each of them passes the test of the
    comprehension, and five results come back. *)
Theorem k_bound_exceeds_memory_count :
  List.length (memories Demo.one_memory) = 1
  /\ faiss.search (index Demo.one_memory) [8%Q; 1%Q] 5
     = Ok [0; -1; -1; -1; -1]%Z
  /\ snd (retrieve_memories Demo.embed "anything" 5 Demo.one_memory)
     = Ok [JStr "the sea remembers"; JStr "the sea remembers";
           JStr "the sea remembers"; JStr "the sea remembers";
           JStr "the sea remembers"].
Proof. vm_compute. repeat split. Qed.

(** C5, the code at a store of two memories with [k = 3]: the label [-1]
    is below the range of the texts, yet it is not skipped; it yields the
    last memory a second time. *)
Theorem padding_label_returns_last_memory :
  faiss.search (index Demo.two_memories) [8%Q; 1%Q] 3 = Ok [1; 0; -1]%Z
  /\ snd (retrieve_memories Demo.embed "anything" 3 Demo.two_memories)
     = Ok [JStr "remember the lighthouse"; JStr "the sea remembers";
           JStr "remember the lighthouse"]
  /\ Py.select (memories Demo.two_memories) [1; 0; -1]%Z
     <> Ok [JStr "remember the lighthouse"; JStr "the sea remembers"].
Proof.
  repeat split; try (vm_compute; reflexivity).
  vm_compute. discriminate.
Qed.

(* ===================================================================== *)
(** * Further properties of the store *)
(* ===================================================================== *)

(** ** The log *)

Section MoreLogFacts.

Variable json_loads : string -> result json.

Lemma load_lines_drop_blank (lines : list string) : forall acc,
  load_lines json_loads lines acc
  = load_lines json_loads (filter (fun l => negb (blank l)) lines) acc.
Proof.
  induction lines as [| line rest IH]; intros acc; simpl; [reflexivity |].
  destruct (blank line) eqn:Hb; simpl.
  - unfold load_line. unfold blank in Hb. rewrite Hb. apply IH.
  - destruct (load_line json_loads line acc); [apply IH | reflexivity].
Qed.

(** A line holding JSON that is not an object stops the loop. *)
Lemma load_line_not_object (line : string) (v : json) (acc : list pyval) :
  blank line = false ->
  json_loads (PyStr.strip line) = Ok v ->
  (forall members, v <> JObj members) ->
  load_line json_loads line acc = Raise AttributeError.
Proof.
  unfold load_line, blank. intros -> -> Hv.
  destruct v; try reflexivity. now destruct (Hv members).
Qed.

(** What stands after the last line terminator, when blank, is no
    record. *)
Lemma load_lines_removelast (pieces : list string) (acc : list pyval) :
  blank (last pieces EmptyString) = true ->
  load_lines json_loads (removelast pieces) acc
  = load_lines json_loads pieces acc.
Proof.
  intros Hb.
  rewrite (load_lines_drop_blank pieces), (records_before_write pieces), Hb.
  rewrite app_nil_r. apply load_lines_drop_blank.
Qed.

End MoreLogFacts.

(** X1.  Blank lines do not count: two soul files whose lines, once the
    blank ones are left out, are the same, load to the same result. *)
Theorem blank_lines_are_ignored
        (json_loads : string -> result json) (w1 w2 : World)
        (lines1 lines2 : list string) :
  SOUL_FILE w1 = Data lines1 ->
  SOUL_FILE w2 = Data lines2 ->
  filter (fun l => negb (blank l)) lines1
  = filter (fun l => negb (blank l)) lines2 ->
  snd (_load_texts json_loads w1) = snd (_load_texts json_loads w2).
Proof.
  intros H1 H2 Hsame. unfold _load_texts. rewrite H1, H2. simpl.
  rewrite (load_lines_drop_blank json_loads lines1),
          (load_lines_drop_blank json_loads lines2).
  now rewrite Hsame.
Qed.

(** X2.  One line of valid JSON that is not an object (a number, a quoted
    string, an array, [null]) is fatal: [_load_texts] raises
    [AttributeError], whatever the lines after it, and so does the start,
    which leaves the world as it found it. *)
Theorem non_object_line_is_fatal
        (json_loads : string -> result json)
        (embed : pyval -> option faiss.Vec) (w : World)
        (before after : list string) (line : string) (v : json)
        (t1 : list pyval) :
  SOUL_FILE w = Data (before ++ line :: after) ->
  load_lines json_loads before [] = Ok t1 ->
  blank line = false ->
  json_loads (PyStr.strip line) = Ok v ->
  (forall members, v <> JObj members) ->
  _load_texts json_loads w = (w, Raise AttributeError)
  /\ startup json_loads embed w = (w, Raise AttributeError).
Proof.
  intros Hfile H1 Hb Hv Hobj.
  assert (Hload : _load_texts json_loads w = (w, Raise AttributeError)).
  { unfold _load_texts. rewrite Hfile. f_equal.
    rewrite load_lines_app, H1. simpl.
    now rewrite (load_line_not_object json_loads line t1 Hb Hv Hobj). }
  split; [exact Hload |].
  unfold startup, _load_or_build_index, bind. now rewrite Hload.
Qed.

(** ** What an append writes *)

(** Every character that [json.dumps] writes for a character is a
    printable one or above: no control character survives. *)
Lemma escape_char_printable (c : ascii) :
  forallb (fun ch => 32 <=? nat_of_ascii ch)
          (list_ascii_of_string (PyStr.escape_char c)) = true.
Proof.
  destruct c as [[] [] [] [] [] [] [] []]; reflexivity.
Qed.

Lemma escape_printable (s : string) :
  forallb (fun ch => 32 <=? nat_of_ascii ch)
          (list_ascii_of_string (PyStr.escape s)) = true.
Proof.
  induction s as [| c s IH]; [reflexivity |].
  cbn [PyStr.escape].
  rewrite list_ascii_app, forallb_app, escape_char_printable.
  exact IH.
Qed.

Lemma dumps_str_printable (s : string) :
  forallb (fun ch => 32 <=? nat_of_ascii ch)
          (list_ascii_of_string (PyStr.dumps_str s)) = true.
Proof.
  unfold PyStr.dumps_str. cbn [list_ascii_of_string].
  rewrite list_ascii_app. cbn [forallb].
  rewrite forallb_app, escape_printable. reflexivity.
Qed.

Lemma dumps_entry_printable (key value : string) :
  forallb (fun ch => 32 <=? nat_of_ascii ch)
          (list_ascii_of_string (Py.dumps_entry key value)) = true.
Proof.
  unfold Py.dumps_entry.
  repeat (rewrite list_ascii_app, forallb_app).
  rewrite !dumps_str_printable. reflexivity.
Qed.

(** The shape of the line: an opening brace, a closing brace. *)
Lemma dumps_entry_shape (key value : string) :
  exists mid,
    list_ascii_of_string (Py.dumps_entry key value)
    = "{"%char :: mid ++ ["}"%char].
Proof.
  unfold Py.dumps_entry.
  exists (list_ascii_of_string (PyStr.dumps_str key)
          ++ list_ascii_of_string ": "
          ++ list_ascii_of_string (PyStr.dumps_str value)).
  repeat rewrite list_ascii_app. simpl.
  repeat rewrite <- app_assoc. reflexivity.
Qed.

Lemma lstrip_chars_head (c : ascii) (l : list ascii) :
  PyStr.isspace c = false -> PyStr.lstrip_chars (c :: l) = c :: l.
Proof.
  intros Hc. simpl. now rewrite Hc.
Qed.

Lemma strip_chars_braced (mid : list ascii) :
  PyStr.strip_chars ("{"%char :: mid ++ ["}"%char])
  = "{"%char :: mid ++ ["}"%char].
Proof.
  unfold PyStr.strip_chars.
  rewrite (@lstrip_chars_head "{"%char (mid ++ ["}"%char]) eq_refl).
  rewrite app_comm_cons, rev_app_distr.
  cbn [rev app].
  rewrite (@lstrip_chars_head "}"%char _ eq_refl).
  change ("}"%char :: (rev mid ++ ["{"%char]))
    with (rev ["}"%char] ++ rev ("{"%char :: mid)).
  rewrite <- rev_app_distr. apply rev_involutive.
Qed.

(** The line written for an entry: no control character, not blank, its
    own stripped form. *)
Lemma dumps_entry_one_line (key value : string) :
  ~ In (ascii_of_nat 10) (list_ascii_of_string (Py.dumps_entry key value))
  /\ ~ In (ascii_of_nat 13) (list_ascii_of_string (Py.dumps_entry key value))
  /\ blank (Py.dumps_entry key value) = false
  /\ PyStr.strip (Py.dumps_entry key value) = Py.dumps_entry key value.
Proof.
  pose proof (dumps_entry_printable key value) as Hp.
  rewrite forallb_forall in Hp.
  repeat split.
  - intros Hin. apply Hp in Hin. discriminate.
  - intros Hin. apply Hp in Hin. discriminate.
  - apply dumps_entry_not_blank.
  - unfold PyStr.strip.
    destruct (dumps_entry_shape key value) as (mid & Hshape).
    rewrite Hshape, strip_chars_braced, <- Hshape.
    apply string_of_list_ascii_of_string.
Qed.

(** X3.  Whatever the prompt and the reply hold (line breaks included),
    the line that [maybe_append_soul] writes holds no line feed and no
    carriage return, is not blank, and is its own stripped form: it is read
    back as exactly one line of the soul file. *)
Theorem appended_line_is_one_record (prompt reply : string) :
  let line := Py.dumps_entry "text" (entry_text prompt reply) in
  ~ In (ascii_of_nat 10) (list_ascii_of_string line)
  /\ ~ In (ascii_of_nat 13) (list_ascii_of_string line)
  /\ blank line = false
  /\ PyStr.strip line = line.
Proof.
  apply dumps_entry_one_line.
Qed.

Section MoreAppendFacts.

Variable embed : pyval -> option faiss.Vec.

Lemma log_length_soul_lines (w : World) :
  log_length w
  = List.length (filter (fun l => negb (blank l)) (soul_lines w)).
Proof.
  unfold log_length, log_records, soul_lines.
  destruct (SOUL_FILE w); reflexivity.
Qed.

(** A log without a record is a soul file that is terminated. *)
Lemma empty_log_terminated (w : World) :
  log_length w = 0 -> soul_terminated w = true.
Proof.
  rewrite log_length_soul_lines, (records_before_write (soul_lines w)).
  unfold soul_terminated. rewrite length_app.
  destruct (blank (last (soul_lines w) EmptyString)); [reflexivity |].
  cbn [List.length]. lia.
Qed.

(** Lines written one after the other: the first one after what the file
    ended with, every other one on a line of its own, and a terminator at
    the end. *)
Lemma write_lines_after (ls : list string) : forall (l0 : list string) (a : string),
  fold_left write_line ls (l0 ++ [a; EmptyString])
  = l0 ++ a :: ls ++ [EmptyString].
Proof.
  induction ls as [| l ls IH]; intros l0 a; cbn [fold_left app].
  - reflexivity.
  - assert (Hw : write_line (l0 ++ [a; EmptyString]) l
                 = (l0 ++ [a]) ++ [l; EmptyString]).
    { unfold write_line.
      change (l0 ++ [a; EmptyString]) with (l0 ++ ([a] ++ [EmptyString])).
      rewrite (app_assoc l0 [a] [EmptyString]).
      rewrite removelast_last, last_last. reflexivity. }
    rewrite Hw, IH, <- app_assoc. reflexivity.
Qed.

Lemma write_lines_closed (pieces : list string) (l : string)
      (ls : list string) :
  fold_left write_line (l :: ls) pieces
  = removelast pieces
    ++ (last pieces EmptyString ++ l)%string :: ls ++ [EmptyString].
Proof.
  cbn [fold_left]. unfold write_line at 2. apply write_lines_after.
Qed.

(** The world that an append that completes leaves. *)
Lemma append_completes_state (prompt reply : string) (w w' : World) :
  maybe_append_soul embed prompt reply w = (w', Ok tt) ->
  exists v,
    embed (JStr (entry_text prompt reply)) = Some v
    /\ w' = set_memories (memories w ++ [JStr (entry_text prompt reply)])
              (set_index (faiss.mkIndex (faiss.d (index w))
                            (faiss.xb (index w) ++ [v]))
                 (after_log_write (entry_text prompt reply) w)).
Proof.
  rewrite maybe_append_soul_unfold. cbv zeta. intros Hrun.
  destruct (SOUL_FILE w); try discriminate;
    destruct (embed (JStr (entry_text prompt reply))) as [v |];
    try discriminate;
    destruct (List.length v =? faiss.d (index w)); try discriminate;
    injection Hrun as <-; eauto.
Qed.

(** The soul file after an append that got past [open], whatever happened
    next. *)
Lemma append_soul_file (prompt reply : string) (w : World) :
  SOUL_FILE w <> Locked ->
  SOUL_FILE (fst (maybe_append_soul embed prompt reply w))
  = Data (write_line (soul_lines w)
            (Py.dumps_entry "text" (entry_text prompt reply))).
Proof.
  intros Hopen. rewrite maybe_append_soul_unfold. cbv zeta.
  destruct (SOUL_FILE w) eqn:Hs; try congruence;
    destruct (embed (JStr (entry_text prompt reply))) as [v |];
    try reflexivity;
    destruct (List.length v =? faiss.d (index w)); reflexivity.
Qed.

Lemma append_persisted_files (prompt reply : string) (w : World) :
  INDEX_FILE (fst (maybe_append_soul embed prompt reply w)) = INDEX_FILE w
  /\ IDMAP_FILE (fst (maybe_append_soul embed prompt reply w)) = IDMAP_FILE w.
Proof.
  rewrite maybe_append_soul_unfold. cbv zeta.
  destruct (SOUL_FILE w);
    destruct (embed (JStr (entry_text prompt reply))) as [v |];
    try (split; reflexivity);
    destruct (List.length v =? faiss.d (index w)); split; reflexivity.
Qed.

End MoreAppendFacts.

(** X4.  A record written is a record read: when the log loads to
    [texts], the soul file is terminated (what stands after its last line
    terminator is blank) and the decoder reads the new line back as the
    entry that was dumped, reloading the log after [maybe_append_soul] gives
    [texts] followed by the new text.  This holds as soon as the log write
    has happened, also when the embedding or the insertion raised
    afterwards. *)
Theorem append_then_reload
        (json_loads : string -> result json)
        (embed : pyval -> option faiss.Vec)
        (prompt reply : string) (w : World) (texts : list pyval) :
  _load_texts json_loads w = (w, Ok texts) ->
  soul_terminated w = true ->
  json_loads (Py.dumps_entry "text" (entry_text prompt reply))
  = Ok (JObj [("text", JStr (entry_text prompt reply))]) ->
  let w' := fst (maybe_append_soul embed prompt reply w) in
  _load_texts json_loads w'
  = (w', Ok (texts ++ [JStr (entry_text prompt reply)])).
Proof.
  intros Hload Hterm Hdec w'. subst w'.
  set (text := entry_text prompt reply) in *.
  assert (Hopen : SOUL_FILE w <> Locked).
  { unfold _load_texts in Hload. destruct (SOUL_FILE w); congruence. }
  assert (Hold : load_lines json_loads (soul_lines w) [] = Ok texts).
  { unfold _load_texts, soul_lines in *.
    destruct (SOUL_FILE w); simpl; congruence. }
  unfold soul_terminated in Hterm.
  unfold _load_texts at 1.
  rewrite (@append_soul_file embed prompt reply w Hopen). f_equal.
  fold text. unfold write_line. rewrite load_lines_app.
  rewrite (@load_lines_removelast json_loads (soul_lines w) [] Hterm), Hold.
  cbn [load_lines].
  destruct (dumps_entry_one_line "text" text) as (_ & _ & Hb & Hs).
  unfold blank in Hb. rewrite Hs in Hb.
  unfold load_line at 1.
  rewrite (strip_after_blank _ _ Hterm), Hs, Hb, Hdec.
  reflexivity.
Qed.

Section SessionFacts.

Variable embed : pyval -> option faiss.Vec.

(** The line and the memory of one turn. *)
Lemma appends_state (turns : list (string * string)) : forall w w',
  appends embed turns w = (w', Ok tt) ->
  memories w' = memories w ++ map Repl.memory_of turns
  /\ soul_lines w'
     = fold_left write_line
         (map (fun t => Py.dumps_entry "text" (entry_text (fst t) (snd t)))
              turns)
         (soul_lines w)
  /\ faiss.d (index w') = faiss.d (index w)
  /\ exists vs,
       embed_all embed (map Repl.memory_of turns) = Some vs
       /\ faiss.xb (index w') = faiss.xb (index w) ++ vs.
Proof.
  induction turns as [| [p r] rest IH]; intros w w' Hrun;
    cbn [appends] in Hrun.
  - unfold ret in Hrun. injection Hrun as <-. cbn [map fold_left].
    rewrite !app_nil_r. repeat split. exists []. now rewrite app_nil_r.
  - unfold bind in Hrun.
    destruct (maybe_append_soul embed p r w) as [w1 [[] | e]] eqn:Hstep;
      [| discriminate].
    destruct (@append_completes_state embed p r w w1 Hstep) as (v & Hv & Hw1).
    destruct (IH w1 w' Hrun) as (Hm & Hs & Hd & vs & Hvs & Hx).
    assert (H1 : memories w1 = memories w ++ [JStr (entry_text p r)])
      by (subst w1; reflexivity).
    assert (H2 : soul_lines w1
                 = write_line (soul_lines w)
                     (Py.dumps_entry "text" (entry_text p r)))
      by (subst w1; reflexivity).
    assert (H3 : faiss.d (index w1) = faiss.d (index w))
      by (subst w1; reflexivity).
    assert (H4 : faiss.xb (index w1) = faiss.xb (index w) ++ [v])
      by (subst w1; reflexivity).
    rewrite Hm, Hs, Hd, Hx, H1, H2, H3, H4, <- !app_assoc.
    cbn [map app fst snd fold_left].
    repeat split.
    exists (v :: vs). split; [| reflexivity].
    cbn [embed_all]. unfold Repl.memory_of at 1. cbn [fst snd].
    now rewrite Hv, Hvs.
Qed.

(** The records of the log after a session of appends that all completed,
    on a soul file that was terminated. *)
Lemma appends_log_length (turns : list (string * string)) : forall w w',
  soul_terminated w = true ->
  appends embed turns w = (w', Ok tt) ->
  soul_terminated w' = true
  /\ log_length w' = log_length w + List.length turns.
Proof.
  induction turns as [| [p r] rest IH]; intros w w' Hterm Hrun;
    cbn [appends] in Hrun.
  - unfold ret in Hrun. injection Hrun as <-. cbn [List.length].
    split; [exact Hterm | lia].
  - unfold bind in Hrun.
    destruct (maybe_append_soul embed p r w) as [w1 [[] | e]] eqn:Hstep;
      [| discriminate].
    destruct (@append_completes_state embed p r w w1 Hstep) as (v & Hv & Hw1).
    assert (Ht1 : soul_terminated w1 = true).
    { subst w1. apply (terminated_after_write (entry_text p r) w). }
    assert (Hl1 : log_length w1 = S (log_length w)).
    { subst w1.
      change (log_length (after_log_write (entry_text p r) w)
              = S (log_length w)).
      now rewrite log_length_after_write, Hterm. }
    destruct (IH w1 w' Ht1 Hrun) as (Ht & Hl).
    split; [exact Ht |]. rewrite Hl, Hl1. cbn [List.length]. lia.
Qed.

Lemma appends_persisted_files (turns : list (string * string)) : forall w,
  INDEX_FILE (fst (appends embed turns w)) = INDEX_FILE w
  /\ IDMAP_FILE (fst (appends embed turns w)) = IDMAP_FILE w.
Proof.
  induction turns as [| [p r] rest IH]; intros w; simpl.
  - split; reflexivity.
  - unfold bind.
    destruct (append_persisted_files embed p r w) as (Hi & Hm).
    destruct (maybe_append_soul embed p r w) as [w1 [[] | e]]; simpl in *.
    + destruct (IH w1) as (Hi' & Hm'). split; congruence.
    + split; assumption.
Qed.

End SessionFacts.

(** X5.  The appends of a session accumulate in order: when they all
    complete, the in-memory texts are the old ones followed by the entries
    of the turns; the index, its dimension unchanged, has gained their
    embeddings in the same order; and the soul file has received their
    lines in the same order, the first one written after what the file
    ended with, every other one on a line of its own, with a line
    terminator at the end. *)
Theorem appends_accumulate_in_order
        (embed : pyval -> option faiss.Vec)
        (turns : list (string * string)) (w w' : World) :
  appends embed turns w = (w', Ok tt) ->
  memories w' = memories w ++ map Repl.memory_of turns
  /\ soul_lines w'
     = match map (fun t => Py.dumps_entry "text" (entry_text (fst t) (snd t)))
                 turns with
       | [] => soul_lines w
       | l :: ls =>
           removelast (soul_lines w)
           ++ (last (soul_lines w) EmptyString ++ l)%string
              :: ls ++ [EmptyString]
       end
  /\ faiss.d (index w') = faiss.d (index w)
  /\ exists vs,
       embed_all embed (map Repl.memory_of turns) = Some vs
       /\ faiss.xb (index w') = faiss.xb (index w) ++ vs.
Proof.
  intros Hrun.
  destruct (@appends_state embed turns w w' Hrun) as (Hm & Hs & Hd & Hx).
  split; [exact Hm |]. split; [| split; [exact Hd | exact Hx]].
  rewrite Hs.
  destruct (map (fun t => Py.dumps_entry "text" (entry_text (fst t) (snd t)))
                turns) as [| l ls]; [reflexivity |].
  apply write_lines_closed.
Qed.

(** X6.  An append never persists: whatever the turns and however the
    session of appends ends, the index file and the IdMap file are what
    they were before it. *)
Theorem appends_never_persist
        (embed : pyval -> option faiss.Vec)
        (turns : list (string * string)) (w : World) :
  INDEX_FILE (fst (appends embed turns w)) = INDEX_FILE w
  /\ IDMAP_FILE (fst (appends embed turns w)) = IDMAP_FILE w.
Proof.
  apply appends_persisted_files.
Qed.

(** ** Starts and restarts *)

Section RestartFacts.

Variable json_loads : string -> result json.
Variable embed : pyval -> option faiss.Vec.

(** [_load_texts] reads the soul file and nothing else. *)
Lemma load_texts_soul (w1 w2 : World) :
  SOUL_FILE w1 = SOUL_FILE w2 ->
  snd (_load_texts json_loads w1) = snd (_load_texts json_loads w2).
Proof.
  unfold _load_texts. intros ->. destruct (SOUL_FILE w2); reflexivity.
Qed.

Lemma load_texts_world (w : World) :
  fst (_load_texts json_loads w) = w.
Proof.
  unfold _load_texts. destruct (SOUL_FILE w); reflexivity.
Qed.

Lemma load_texts_next (w : World) (texts : list pyval)
      (ix : faiss.Index) (mem : list pyval) (calls : list (list pyval)) :
  _load_texts json_loads w = (w, Ok texts) ->
  _load_texts json_loads (next_process w ix mem calls)
  = (next_process w ix mem calls, Ok texts).
Proof.
  intros Hload.
  pose proof (load_texts_world (next_process w ix mem calls)) as Hw.
  pose proof (@load_texts_soul (next_process w ix mem calls) w eq_refl) as Hs.
  rewrite Hload in Hs. cbn [snd] in Hs.
  destruct (_load_texts json_loads (next_process w ix mem calls)) as [w' r].
  cbn [fst snd] in *. congruence.
Qed.

Lemma rebuild_embed_failure (texts : list pyval) (w : World) :
  embed_all embed texts = None ->
  _rebuild_index embed texts w
  = (set_encode_calls (encode_calls w ++ [texts]) w, Raise EmbedError).
Proof.
  intros Hfail. destruct texts as [| t rest]; [discriminate |].
  unfold _rebuild_index, bind, encode. now rewrite Hfail.
Qed.

End RestartFacts.

(** X7.  When the embedder fails on some text of the log, a start that
    has to rebuild raises: nothing is written to the index file or the
    IdMap file, and the globals [index] and [memories] are not assigned;
    only the call to the embedder has happened. *)
Theorem rebuild_embedding_failure
        (json_loads : string -> result json)
        (embed : pyval -> option faiss.Vec) (w : World) (texts : list pyval) :
  _load_texts json_loads w = (w, Ok texts) ->
  exists_ (INDEX_FILE w) = false \/ exists_ (IDMAP_FILE w) = false ->
  embed_all embed texts = None ->
  startup json_loads embed w
  = (set_encode_calls (encode_calls w ++ [texts]) w, Raise EmbedError).
Proof.
  intros Hload Habs Hfail.
  unfold startup, bind.
  rewrite (@load_or_build_unfold json_loads embed texts w Hload).
  rewrite try_reuse_absent by exact Habs. cbn [snd].
  unfold rebuild_and_return, bind.
  now rewrite (@rebuild_embed_failure embed texts w Hfail).
Qed.

(** X8.  A restart after a rebuild reuses what the rebuild persisted.  Let
    a start rebuild over a log that is not empty, all of whose texts embed
    to vectors of one width, with files that can be written; let the
    decoder read the IdMap that was dumped as a value of the length of the
    log.  Then a later process on the directory it leaves gets the same
    index and the same texts, without calling the embedder and without
    writing anything. *)
Theorem restart_after_rebuild_reuses
        (json_loads : string -> result json)
        (embed : pyval -> option faiss.Vec)
        (w : World) (texts : list pyval) (emb : list faiss.Vec)
        (id_map : json)
        (ix0 : faiss.Index) (mem0 : list pyval) (calls0 : list (list pyval)) :
  _load_texts json_loads w = (w, Ok texts) ->
  texts <> [] ->
  exists_ (INDEX_FILE w) = false \/ exists_ (IDMAP_FILE w) = false ->
  embed_all embed texts = Some emb ->
  forallb (fun v => List.length v =? shape1 emb) emb = true ->
  INDEX_FILE w <> Locked ->
  IDMAP_FILE w <> Locked ->
  json_loads (Py.dumps_range (List.length texts)) = Ok id_map ->
  Py.len id_map = Ok (List.length texts) ->
  let w1 := fst (startup json_loads embed w) in
  let w2 := next_process w1 ix0 mem0 calls0 in
  snd (startup json_loads embed w) = Ok tt
  /\ startup json_loads embed w2
     = (set_memories (memories w1) (set_index (index w1) w2), Ok tt)
  /\ memories w1 = texts.
Proof.
  intros Hload Hne Habs Hemb Hwidth Hi Hm Hdec Hlen w1 w2.
  assert (Hstart :
    startup json_loads embed w
    = (set_memories texts
         (set_index (faiss.mkIndex (shape1 emb) emb)
            (set_IDMAP_FILE (Data (Py.dumps_range (List.length texts)))
               (set_INDEX_FILE
                  (Data (faiss.Serialized (faiss.mkIndex (shape1 emb) emb)))
                  (set_encode_calls (encode_calls w ++ [texts]) w)))),
       Ok tt)).
  { unfold startup, bind.
    rewrite (@load_or_build_unfold json_loads embed texts w Hload).
    rewrite try_reuse_absent by exact Habs. cbn [snd].
    unfold rebuild_and_return, bind.
    rewrite (@rebuild_result embed texts emb w Hne Hemb Hwidth Hi Hm).
    reflexivity. }
  subst w2 w1. rewrite Hstart. cbn [fst snd].
  split; [reflexivity |]. split; [| reflexivity].
  set (w1 := set_memories texts _).
  assert (Hload1 : _load_texts json_loads w1 = (w1, Ok texts)).
  { pose proof (load_texts_world json_loads w1) as Hw.
    pose proof (@load_texts_soul json_loads w1 w eq_refl) as Hs.
    rewrite Hload in Hs. cbn [snd] in Hs.
    destruct (_load_texts json_loads w1) as [w' r].
    cbn [fst snd] in *. congruence. }
  pose proof (@load_texts_next json_loads w1 texts ix0 mem0 calls0 Hload1)
    as Hload2.
  unfold startup, bind.
  rewrite (@load_or_build_unfold json_loads embed texts _ Hload2).
  rewrite (@try_reuse_present json_loads texts
             (next_process w1 ix0 mem0 calls0)
             (Py.dumps_range (List.length texts)))
    by reflexivity.
  rewrite Hdec, Hlen, Nat.eqb_refl. reflexivity.
Qed.

(** X9.  A restart after an append rebuilds.  Let the index file exist,
    the IdMap file decode to a value as long as the log, and the soul file
    be terminated; after a session of at least one append, all completed, a
    later process on the directory finds a log longer than the IdMap by the
    number of the appends.  Its start does not reuse the index file: the
    embedder is called on all the texts of the log, the old ones and the
    new ones, and when they embed to vectors of one width and the index
    file can be written, the start returns the index made of these vectors
    in log order, and writes it and an IdMap of the new length over the
    persisted ones. *)
Theorem restart_after_append_rebuilds
        (json_loads : string -> result json)
        (embed : pyval -> option faiss.Vec)
        (w w' : World) (turns : list (string * string))
        (s : string) (id_map : json) (texts' : list pyval)
        (ix0 : faiss.Index) (mem0 : list pyval) (calls0 : list (list pyval)) :
  exists_ (INDEX_FILE w) = true ->
  IDMAP_FILE w = Data s ->
  json_loads s = Ok id_map ->
  Py.len id_map = Ok (log_length w) ->
  soul_terminated w = true ->
  turns <> [] ->
  appends embed turns w = (w', Ok tt) ->
  let w2 := next_process w' ix0 mem0 calls0 in
  _load_texts json_loads w2 = (w2, Ok texts') ->
  List.length texts' = log_length w + List.length turns
  /\ encode_calls (fst (_load_or_build_index json_loads embed w2))
     = calls0 ++ [texts']
  /\ forall emb,
       embed_all embed texts' = Some emb ->
       forallb (fun v => List.length v =? shape1 emb) emb = true ->
       INDEX_FILE w <> Locked ->
       let ix := faiss.mkIndex (shape1 emb) emb in
       _load_or_build_index json_loads embed w2
       = (set_IDMAP_FILE (Data (Py.dumps_range (List.length texts')))
            (set_INDEX_FILE (Data (faiss.Serialized ix))
               (set_encode_calls (calls0 ++ [texts']) w2)),
          Ok (ix, texts')).
Proof.
  intros Hi Hm Hdec Hlen Hterm Hne Hrun w2 Hload.
  destruct (appends_persisted_files embed turns w) as (Hif & Hmf).
  rewrite Hrun in Hif, Hmf. cbn [fst] in Hif, Hmf.
  destruct (@appends_log_length embed turns w w' Hterm Hrun) as (_ & Hlog).
  assert (Hcount : List.length texts' = log_length w + List.length turns).
  { rewrite (@load_texts_length json_loads w2 texts' Hload). exact Hlog. }
  assert (Htexts : texts' <> []).
  { intros ->. destruct turns; [congruence |].
    cbn [List.length] in Hcount. lia. }
  assert (Hfall : _load_or_build_index json_loads embed w2
                  = rebuild_and_return embed texts' w2).
  { rewrite (@load_or_build_unfold json_loads embed texts' w2 Hload).
    rewrite (@try_reuse_present json_loads texts' w2 s);
      [| subst w2; unfold next_process; cbn [INDEX_FILE]; congruence
       | subst w2; unfold next_process; cbn [IDMAP_FILE]; congruence].
    rewrite Hdec, Hlen.
    destruct (log_length w =? List.length texts') eqn:Heq; [| reflexivity].
    apply Nat.eqb_eq in Heq. destruct turns; [congruence |].
    cbn [List.length] in Hcount. lia. }
  split; [exact Hcount |]. rewrite Hfall. split.
  - rewrite rebuild_and_return_world.
    now rewrite (@rebuild_encodes_all embed texts' w2 Htexts).
  - intros emb Hemb Hwidth Hopen ix.
    unfold rebuild_and_return, bind.
    rewrite (@rebuild_result embed texts' emb w2 Htexts Hemb Hwidth);
      [reflexivity
      | subst w2; unfold next_process; cbn [INDEX_FILE]; congruence
      | subst w2; unfold next_process; cbn [IDMAP_FILE]; congruence].
Qed.

(** X10.  A store started on an empty log cannot grow.  With no text in
    the log and no persisted index to reuse, the start leaves the
    1-dimensional dummy index; an append whose text embeds to a vector of
    any other width then writes its line to the soul file and raises
    [AssertionError] at [index.add]: the log holds one record more, the
    index and the in-memory texts hold none. *)
Theorem first_append_on_empty_store_fails
        (json_loads : string -> result json)
        (embed : pyval -> option faiss.Vec)
        (w : World) (prompt reply : string) (v : faiss.Vec) :
  _load_texts json_loads w = (w, Ok []) ->
  exists_ (INDEX_FILE w) = false \/ exists_ (IDMAP_FILE w) = false ->
  embed (JStr (entry_text prompt reply)) = Some v ->
  List.length v <> 1 ->
  let w1 := fst (startup json_loads embed w) in
  let w2 := fst (maybe_append_soul embed prompt reply w1) in
  snd (startup json_loads embed w) = Ok tt
  /\ index w1 = faiss.IndexFlatIP 1
  /\ snd (maybe_append_soul embed prompt reply w1) = Raise AssertionError
  /\ log_length w2 = 1
  /\ faiss.ntotal (index w2) = 0
  /\ memories w2 = [].
Proof.
  intros Hload Habs Hv Hwidth w1 w2.
  assert (Hstart : startup json_loads embed w
                   = (set_memories [] (set_index (faiss.IndexFlatIP 1) w),
                      Ok tt)).
  { unfold startup, bind.
    rewrite (@load_or_build_unfold json_loads embed [] w Hload).
    rewrite try_reuse_absent by exact Habs. reflexivity. }
  assert (Hopen : SOUL_FILE w <> Locked).
  { unfold _load_texts in Hload. destruct (SOUL_FILE w); congruence. }
  assert (Hzero : log_length w = 0).
  { now rewrite <- (@load_texts_length json_loads w [] Hload). }
  subst w2 w1. rewrite Hstart. cbn [fst snd].
  set (w1 := set_memories [] (set_index (faiss.IndexFlatIP 1) w)).
  rewrite maybe_append_soul_unfold. cbv zeta. rewrite Hv.
  change (faiss.d (index w1)) with 1.
  apply Nat.eqb_neq in Hwidth. rewrite Hwidth.
  change (SOUL_FILE w1) with (SOUL_FILE w).
  assert (Hlog : log_length (after_log_write (entry_text prompt reply) w1) = 1).
  { rewrite log_length_after_write.
    change (soul_terminated w1) with (soul_terminated w).
    change (log_length w1) with (log_length w).
    now rewrite (@empty_log_terminated w Hzero), Hzero. }
  destruct (SOUL_FILE w) eqn:Hs; try congruence; cbn [fst snd];
    repeat split; try reflexivity; exact Hlog.
Qed.

(** ** Retrieval *)

Section RetrieveFacts.

Variable embed : pyval -> option faiss.Vec.

(** The exits of [retrieve_memories] on a store that is not empty. *)
Lemma retrieve_memories_unfold (query : string) (k : Z) (w : World) :
  memories w <> [] ->
  retrieve_memories embed query k w =
  let w1 := set_encode_calls (encode_calls w ++ [[JStr query]]) w in
  match embed (JStr query) with
  | None => (w1, Raise EmbedError)
  | Some qv =>
      match faiss.search (index w) qv k with
      | Raise e => (w1, Raise e)
      | Ok labels => (w1, Py.select (memories w) labels)
      end
  end.
Proof.
  intros Hne. unfold retrieve_memories, bind, gets, encode, lift.
  destruct (memories w) as [| m ms] eqn:Hmem; [congruence |].
  cbn [embed_all]. destruct (embed (JStr query)) as [qv |]; [| reflexivity].
  cbn [hd index memories set_encode_calls].
  destruct (faiss.search (index w) qv k) as [I | e]; [| reflexivity].
  rewrite Hmem. reflexivity.
Qed.

Lemma getitem_in {A : Type} (l : list A) (i : Z) (x : A) :
  Py.getitem l i = Ok x -> In x l.
Proof.
  unfold Py.getitem.
  destruct (_ <? 0)%Z; [discriminate |].
  destruct (nth_error l _) eqn:Hn; [| discriminate].
  intros H. injection H as <-. eapply nth_error_In, Hn.
Qed.

Lemma select_in {A : Type} (l : list A) (I : list Z) : forall out,
  Py.select l I = Ok out -> forall x, In x out -> In x l.
Proof.
  induction I as [| i rest IH]; intros out H x Hx; cbn [Py.select] in H.
  - injection H as <-. contradiction.
  - destruct (i <? Z.of_nat (List.length l))%Z; [| eauto].
    destruct (Py.getitem l i) as [y |] eqn:Hy; [| discriminate].
    destruct (Py.select l rest) as [ys |]; [| discriminate].
    injection H as <-. destruct Hx as [<- | Hx].
    + eapply getitem_in, Hy.
    + eapply IH; eauto.
Qed.

Lemma select_app {A : Type} (l : list A) (I1 I2 : list Z) :
  Py.select l (I1 ++ I2) =
  match Py.select l I1, Py.select l I2 with
  | Ok a, Ok b => Ok (a ++ b)
  | Raise e, _ => Raise e
  | Ok _, Raise e => Raise e
  end.
Proof.
  induction I1 as [| i rest IH]; cbn [app Py.select].
  - destruct (Py.select l I2); reflexivity.
  - destruct (i <? Z.of_nat (List.length l))%Z; [| exact IH].
    destruct (Py.getitem l i); [| reflexivity].
    rewrite IH.
    destruct (Py.select l rest); [| reflexivity].
    destruct (Py.select l I2); reflexivity.
Qed.

(** A label inside the range is mapped to the text at its position. *)
Lemma select_in_range {A : Type} (l : list A) (d : A) (I : list Z) :
  Forall (fun i => (0 <= i < Z.of_nat (List.length l))%Z) I ->
  Py.select l I = Ok (map (fun i => nth (Z.to_nat i) l d) I).
Proof.
  induction 1 as [| i rest Hi _ IH]; cbn [Py.select map]; [reflexivity |].
  destruct (i <? Z.of_nat (List.length l))%Z eqn:Hlt;
    [| apply Z.ltb_ge in Hlt; lia].
  unfold Py.getitem.
  destruct (i <? 0)%Z eqn:Hneg; [apply Z.ltb_lt in Hneg; lia |].
  rewrite Hneg.
  destruct (nth_error l (Z.to_nat i)) as [x |] eqn:Hn.
  - rewrite IH. f_equal. f_equal. symmetry. now apply nth_error_nth.
  - apply nth_error_None in Hn. lia.
Qed.

(** Every padding label is mapped to the last text. *)
Lemma select_padding {A : Type} (l : list A) (d : A) (m : nat) :
  l <> [] ->
  Py.select l (repeat (-1)%Z m) = Ok (repeat (last l d) m).
Proof.
  intros Hne.
  destruct (exists_last Hne) as (l0 & x & ->).
  rewrite last_last.
  induction m as [| m IH]; [reflexivity |].
  change (repeat (-1)%Z (S m)) with ([(-1)%Z] ++ repeat (-1)%Z m).
  rewrite select_app, select_padding_label, IH. reflexivity.
Qed.

End RetrieveFacts.

Section SearchFacts.

Lemma insert_hit_perm (h : Z * Q) (l : list (Z * Q)) :
  Permutation (faiss.insert_hit h l) (h :: l).
Proof.
  induction l as [| h' r IH]; cbn [faiss.insert_hit]; [reflexivity |].
  destruct (Qle_bool (snd h) (snd h')); [| reflexivity].
  rewrite IH. apply perm_swap.
Qed.

Lemma sort_hits_perm (l : list (Z * Q)) :
  Permutation (fold_right faiss.insert_hit [] l) l.
Proof.
  induction l as [| h r IH]; cbn [fold_right]; [reflexivity |].
  rewrite insert_hit_perm. now constructor.
Qed.

Lemma map_fst_combine {A B : Type} (a : list A) : forall (b : list B),
  List.length a = List.length b -> map fst (combine a b) = a.
Proof.
  induction a as [| x a IH]; intros [| y b] H; try discriminate;
    cbn [combine map fst]; [reflexivity |].
  f_equal. apply IH. now injection H.
Qed.

Lemma NoDup_map_of_nat (l : list nat) :
  NoDup l -> NoDup (map Z.of_nat l).
Proof.
  induction 1 as [| x l Hx _ IH]; cbn [map]; constructor; [| exact IH].
  intros Hin. apply in_map_iff in Hin. destruct Hin as (y & Hy & Hin).
  apply Nat2Z.inj in Hy. now subst y.
Qed.

(** The labels that [search] ranks are the positions of the index, each
    once. *)
Lemma ranked_labels (ix : faiss.Index) (q : faiss.Vec) :
  Permutation (map fst (faiss.ranked ix q))
              (map Z.of_nat (seq 0 (faiss.ntotal ix))).
Proof.
  unfold faiss.ranked.
  rewrite (Permutation_map fst (sort_hits_perm _)).
  rewrite map_fst_combine; [reflexivity |].
  unfold faiss.ntotal. now rewrite !length_map, length_seq.
Qed.

Lemma ranked_labels_facts (ix : faiss.Index) (q : faiss.Vec) :
  NoDup (map fst (faiss.ranked ix q))
  /\ List.length (map fst (faiss.ranked ix q)) = faiss.ntotal ix
  /\ Forall (fun i => (0 <= i < Z.of_nat (faiss.ntotal ix))%Z)
            (map fst (faiss.ranked ix q)).
Proof.
  pose proof (ranked_labels ix q) as Hp.
  repeat split.
  - eapply Permutation_NoDup; [symmetry; exact Hp |].
    apply NoDup_map_of_nat, seq_NoDup.
  - rewrite (Permutation_length Hp), length_map, length_seq. reflexivity.
  - apply Forall_forall. intros i Hi.
    eapply Permutation_in in Hi; [| exact Hp].
    apply in_map_iff in Hi. destruct Hi as (j & <- & Hj).
    apply in_seq in Hj. lia.
Qed.

(** What [search] returns when its two assertions pass. *)
Lemma search_result (ix : faiss.Index) (q : faiss.Vec) (k : Z) :
  List.length q = faiss.d ix ->
  (0 < k)%Z ->
  faiss.search ix q k
  = Ok (firstn (Z.to_nat k) (map fst (faiss.ranked ix q))
        ++ repeat (-1)%Z
             (Z.to_nat k
              - List.length (firstn (Z.to_nat k)
                               (map fst (faiss.ranked ix q))))).
Proof.
  intros Hq Hk. unfold faiss.search.
  apply Nat.eqb_eq in Hq. rewrite Hq. cbn [negb].
  destruct (k <=? 0)%Z eqn:Hle; [apply Z.leb_le in Hle; lia |].
  reflexivity.
Qed.

End SearchFacts.

Lemma retrieve_world (embed : pyval -> option faiss.Vec)
      (query : string) (k : Z) (w : World) :
  fst (retrieve_memories embed query k w) = w
  \/ fst (retrieve_memories embed query k w)
     = set_encode_calls (encode_calls w ++ [[JStr query]]) w.
Proof.
  destruct (memories w) as [| m ms] eqn:Hmem.
  - left. unfold retrieve_memories, bind, gets. now rewrite Hmem.
  - right. rewrite retrieve_memories_unfold by congruence. cbv zeta.
    destruct (embed (JStr query)) as [qv |]; [| reflexivity].
    destruct (faiss.search (index w) qv k); reflexivity.
Qed.

(** X11.  Retrieval is a read: whatever the query, [k] and the outcome,
    [retrieve_memories] leaves the three files, the index and the
    in-memory texts as they were; at most it has called the embedder once,
    on the query alone. *)
Theorem retrieve_is_read_only
        (embed : pyval -> option faiss.Vec) (query : string) (k : Z)
        (w : World) :
  let w' := fst (retrieve_memories embed query k w) in
  SOUL_FILE w' = SOUL_FILE w
  /\ INDEX_FILE w' = INDEX_FILE w
  /\ IDMAP_FILE w' = IDMAP_FILE w
  /\ index w' = index w
  /\ memories w' = memories w
  /\ (encode_calls w' = encode_calls w
      \/ encode_calls w' = encode_calls w ++ [[JStr query]]).
Proof.
  intros w'. subst w'.
  destruct (retrieve_world embed query k w) as [-> | ->];
    repeat split; auto.
Qed.

(** X12.  Retrieval invents nothing: when [retrieve_memories] returns,
    every item of its result is one of the in-memory texts, and there are
    at most [k] of them. *)
Theorem retrieve_returns_memories
        (embed : pyval -> option faiss.Vec) (query : string) (k : Z)
        (w w' : World) (out : list pyval) :
  retrieve_memories embed query k w = (w', Ok out) ->
  (Z.of_nat (List.length out) <= Z.max k 0)%Z
  /\ forall x, In x out -> In x (memories w).
Proof.
  intros Hrun. split; [eapply retrieve_at_most_k, Hrun |].
  destruct (memories w) as [| m ms] eqn:Hmem.
  - unfold retrieve_memories, bind, gets in Hrun. rewrite Hmem in Hrun.
    injection Hrun as _ <-. contradiction.
  - rewrite retrieve_memories_unfold in Hrun by congruence.
    cbv zeta in Hrun.
    destruct (embed (JStr query)) as [qv |]; [| discriminate].
    destruct (faiss.search (index w) qv k) as [labels |]; [| discriminate].
    injection Hrun as _ Hsel. rewrite Hmem in Hsel.
    intros x Hx. eapply select_in; eauto.
Qed.

(** X13.  The normal case.  On a store whose index holds one vector per
    in-memory text, for a query that embeds to a vector of the width of
    the index and [1 <= k <= len(memories)], retrieval returns exactly [k]
    texts: the search yields [k] labels, all different and all in range,
    and the result is the text at each of them, in the order of the
    search. *)
Theorem retrieve_top_k
        (embed : pyval -> option faiss.Vec) (query : string) (k : Z)
        (w : World) (qv : faiss.Vec) :
  faiss.ntotal (index w) = List.length (memories w) ->
  embed (JStr query) = Some qv ->
  List.length qv = faiss.d (index w) ->
  (0 < k <= Z.of_nat (List.length (memories w)))%Z ->
  exists labels,
    faiss.search (index w) qv k = Ok labels
    /\ NoDup labels
    /\ List.length labels = Z.to_nat k
    /\ Forall (fun i => (0 <= i < Z.of_nat (List.length (memories w)))%Z)
              labels
    /\ snd (retrieve_memories embed query k w)
       = Ok (map (fun i => nth (Z.to_nat i) (memories w) JNull) labels).
Proof.
  intros Hn Hq Hwidth Hk.
  destruct (ranked_labels_facts (index w) qv) as (Hnd & Hlen & Hrange).
  rewrite Hn in Hlen, Hrange.
  set (all := map fst (faiss.ranked (index w) qv)) in *.
  assert (Hfirst : List.length (firstn (Z.to_nat k) all) = Z.to_nat k)
    by (rewrite length_firstn; lia).
  exists (firstn (Z.to_nat k) all).
  assert (Hsearch : faiss.search (index w) qv k
                    = Ok (firstn (Z.to_nat k) all)).
  { rewrite search_result by (auto; lia). fold all.
    rewrite Hfirst, Nat.sub_diag. cbn [repeat]. now rewrite app_nil_r. }
  assert (Hin : Forall
                  (fun i => (0 <= i < Z.of_nat (List.length (memories w)))%Z)
                  (firstn (Z.to_nat k) all)).
  { apply Forall_forall. intros i Hi.
    rewrite Forall_forall in Hrange. apply Hrange.
    rewrite <- (firstn_skipn (Z.to_nat k) all). apply in_or_app. now left. }
  repeat split; auto.
  - rewrite <- (firstn_skipn (Z.to_nat k) all) in Hnd.
    eapply NoDup_app_remove_r, Hnd.
  - assert (Hne : memories w <> []).
    { intros He. rewrite He in Hk. cbn in Hk. lia. }
    rewrite retrieve_memories_unfold by exact Hne. cbv zeta.
    rewrite Hq, Hsearch. cbn [snd].
    now apply select_in_range.
Qed.

(** X14.  The short store.  With the same store and query but
    [k > len(memories)], retrieval still returns [k] items: the text at
    every position, in the order of the search, followed by as many copies
    of the last in-memory text as there are labels [-1] in the padding. *)
Theorem retrieve_pads_with_last_memory
        (embed : pyval -> option faiss.Vec) (query : string) (k : Z)
        (w : World) (qv : faiss.Vec) :
  memories w <> [] ->
  faiss.ntotal (index w) = List.length (memories w) ->
  embed (JStr query) = Some qv ->
  List.length qv = faiss.d (index w) ->
  (Z.of_nat (List.length (memories w)) < k)%Z ->
  let n := List.length (memories w) in
  exists labels,
    Permutation labels (map Z.of_nat (seq 0 n))
    /\ faiss.search (index w) qv k
       = Ok (labels ++ repeat (-1)%Z (Z.to_nat k - n))
    /\ snd (retrieve_memories embed query k w)
       = Ok (map (fun i => nth (Z.to_nat i) (memories w) JNull) labels
             ++ repeat (last (memories w) JNull) (Z.to_nat k - n)).
Proof.
  intros Hne Hn Hq Hwidth Hk n. subst n.
  destruct (ranked_labels_facts (index w) qv) as (Hnd & Hlen & Hrange).
  pose proof (ranked_labels (index w) qv) as Hperm.
  rewrite Hn in Hlen, Hrange, Hperm.
  set (all := map fst (faiss.ranked (index w) qv)) in *.
  assert (Hfirst : firstn (Z.to_nat k) all = all)
    by (apply firstn_all2; lia).
  exists all.
  assert (Hsearch : faiss.search (index w) qv k
                    = Ok (all ++ repeat (-1)%Z
                                   (Z.to_nat k - List.length (memories w)))).
  { rewrite search_result by (auto; lia). fold all.
    now rewrite Hfirst, Hlen. }
  repeat split; auto.
  rewrite retrieve_memories_unfold by exact Hne. cbv zeta.
  rewrite Hq, Hsearch. cbn [snd].
  rewrite select_app, (select_in_range (memories w) JNull Hrange).
  now rewrite (@select_padding pyval (memories w) JNull
                 (Z.to_nat k - List.length (memories w)) Hne).
Qed.

(* ===================================================================== *)
(** * Properties of the REPL *)
(* ===================================================================== *)

Section LoopFacts.

Variable embed : pyval -> option faiss.Vec.
Variable ollama : string -> string + string.
Variable TOP_K : Z.

(** Being synchronized is a matter of the soul file, the index and the
    in-memory texts. *)
Lemma synchronized_fields (w1 w2 : World) :
  SOUL_FILE w1 = SOUL_FILE w2 ->
  index w1 = index w2 ->
  memories w1 = memories w2 ->
  synchronized embed w1 -> synchronized embed w2.
Proof.
  unfold synchronized, log_length, log_records.
  intros -> -> ->. auto.
Qed.

Lemma retrieve_keeps_synchronized (query : string) (k : Z) (w : World) :
  synchronized embed w ->
  synchronized embed (fst (retrieve_memories embed query k w)).
Proof.
  intros Hs.
  destruct (retrieve_world embed query k w) as [-> | ->]; [exact Hs |].
  eapply synchronized_fields; [| | | exact Hs]; reflexivity.
Qed.

(** The store after an append that raised: untouched when the soul file
    could not be opened, one record ahead in the log otherwise. *)
Lemma append_raises_state (prompt reply : string) (w w' : World) (e : exn) :
  maybe_append_soul embed prompt reply w = (w', Raise e) ->
  index w' = index w
  /\ memories w' = memories w
  /\ (log_length w' = log_length w \/ log_length w' = S (log_length w)).
Proof.
  rewrite maybe_append_soul_unfold. cbv zeta. intros Hrun.
  assert (Hcase : w' = w \/ w' = after_log_write (entry_text prompt reply) w).
  { destruct (SOUL_FILE w);
      try (injection Hrun as <- _; now left);
      destruct (embed (JStr (entry_text prompt reply))) as [v |];
      try (injection Hrun as <- _; now right);
      destruct (List.length v =? faiss.d (index w));
      try discriminate; injection Hrun as <- _; now right. }
  destruct Hcase as [-> | ->].
  - auto.
  - rewrite log_length_after_write.
    destruct (soul_terminated w); auto.
Qed.

Lemma retrieve_keeps_terminated (query : string) (k : Z) (w : World) :
  soul_terminated (fst (retrieve_memories embed query k w))
  = soul_terminated w.
Proof.
  destruct (retrieve_world embed query k w) as [-> | ->]; reflexivity.
Qed.

(** The outcomes of one pass through the body of the loop. *)
Lemma turn_unfold (raw : string) (c : Repl.Console) :
  Repl.is_exit (PyStr.strip raw) = false ->
  Repl.turn embed ollama TOP_K raw c =
  let user := PyStr.strip raw in
  let w1 := fst (retrieve_memories embed user TOP_K (Repl.world c)) in
  match snd (retrieve_memories embed user TOP_K (Repl.world c)) with
  | Raise e => (Repl.mkConsole w1 (Repl.stdout c), Raise e)
  | Ok ctx =>
      match Repl.build_prompt user ctx with
      | Raise e => (Repl.mkConsole w1 (Repl.stdout c), Raise e)
      | Ok prompt =>
          let reply := Repl.ollama_generate ollama prompt in
          let out := Repl.stdout c
                     ++ [((Repl.nl ++ "Ghost: " ++ reply ++ Repl.nl)
                          ++ Repl.nl)%string] in
          match snd (maybe_append_soul embed user reply w1) with
          | Ok _ =>
              (Repl.mkConsole (fst (maybe_append_soul embed user reply w1)) out,
               Ok true)
          | Raise e =>
              (Repl.mkConsole (fst (maybe_append_soul embed user reply w1)) out,
               Raise e)
          end
      end
  end.
Proof.
  intros Hexit. unfold Repl.turn. rewrite Hexit. cbv zeta.
  destruct (retrieve_memories embed (PyStr.strip raw) TOP_K (Repl.world c))
    as [w1 [ctx | e]]; cbn [fst snd]; [| reflexivity].
  destruct (Repl.build_prompt (PyStr.strip raw) ctx) as [prompt | e];
    [| reflexivity].
  destruct (maybe_append_soul embed (PyStr.strip raw)
              (Repl.ollama_generate ollama prompt) w1) as [w2 [[] | e]];
    reflexivity.
Qed.

(** What a full turn leaves. *)
Lemma turn_completed (raw : string) (c c' : Repl.Console) :
  Repl.turn embed ollama TOP_K raw c = (c', Ok true) ->
  let user := PyStr.strip raw in
  exists ctx prompt,
    snd (retrieve_memories embed user TOP_K (Repl.world c)) = Ok ctx
    /\ Repl.build_prompt user ctx = Ok prompt
    /\ memories (Repl.world c')
       = memories (Repl.world c)
         ++ [JStr (entry_text user (Repl.ollama_generate ollama prompt))]
    /\ soul_lines (Repl.world c')
       = write_line (soul_lines (Repl.world c))
           (Py.dumps_entry "text"
              (entry_text user (Repl.ollama_generate ollama prompt)))
    /\ Repl.stdout c'
       = Repl.stdout c
         ++ [((Repl.nl ++ "Ghost: " ++ Repl.ollama_generate ollama prompt
               ++ Repl.nl) ++ Repl.nl)%string].
Proof.
  intros Hrun user. subst user.
  destruct (Repl.is_exit (PyStr.strip raw)) eqn:Hexit.
  { unfold Repl.turn in Hrun. rewrite Hexit in Hrun. discriminate. }
  rewrite (turn_unfold raw c Hexit) in Hrun. cbv zeta in Hrun.
  pose proof (retrieve_world embed (PyStr.strip raw) TOP_K (Repl.world c))
    as Hread.
  destruct (snd (retrieve_memories embed (PyStr.strip raw) TOP_K
                   (Repl.world c))) as [ctx | e] eqn:Hctx; [| discriminate].
  destruct (Repl.build_prompt (PyStr.strip raw) ctx) as [prompt | e]
    eqn:Hprompt; [| discriminate].
  set (w1 := fst (retrieve_memories embed (PyStr.strip raw) TOP_K
                    (Repl.world c))) in *.
  set (reply := Repl.ollama_generate ollama prompt) in *.
  destruct (maybe_append_soul embed (PyStr.strip raw) reply w1)
    as [w2 [[] | e]] eqn:Hstep; cbn [fst snd] in Hrun; [| discriminate].
  injection Hrun as <-. cbn [Repl.world Repl.stdout].
  destruct (@append_completes_state embed _ _ _ _ Hstep) as (v & _ & ->).
  assert (Hmem : memories w1 = memories (Repl.world c))
    by (destruct Hread as [-> | ->]; reflexivity).
  assert (Hsoul : soul_lines w1 = soul_lines (Repl.world c))
    by (destruct Hread as [-> | ->]; reflexivity).
  exists ctx, prompt.
  split; [reflexivity |]. split; [exact Hprompt |].
  split; [| split; [| reflexivity]].
  - cbn [memories set_memories]. now rewrite Hmem.
  - rewrite <- Hsoul. reflexivity.
Qed.

Lemma turn_stdout (raw : string) (c : Repl.Console) :
  exists more,
    Repl.stdout (fst (Repl.turn embed ollama TOP_K raw c))
    = Repl.stdout c ++ more.
Proof.
  unfold Repl.turn.
  destruct (Repl.is_exit (PyStr.strip raw)).
  { exists []. now rewrite app_nil_r. }
  destruct (retrieve_memories embed (PyStr.strip raw) TOP_K (Repl.world c))
    as [w1 [ctx | e]]; [| exists []; cbn; now rewrite app_nil_r].
  destruct (Repl.build_prompt (PyStr.strip raw) ctx) as [prompt | e];
    [| exists []; cbn; now rewrite app_nil_r].
  cbv zeta.
  destruct (maybe_append_soul embed (PyStr.strip raw)
              (Repl.ollama_generate ollama prompt) w1) as [w2 [[] | e]];
    eexists; reflexivity.
Qed.

(** The terminal only ever gains text. *)
Lemma loop_stdout (keys : list Repl.key) : forall c,
  exists more,
    Repl.stdout (fst (Repl.loop embed ollama TOP_K keys c))
    = Repl.stdout c ++ more.
Proof.
  induction keys as [| [raw |] rest IH]; intros c; cbn [Repl.loop].
  - eexists. reflexivity.
  - destruct (turn_stdout raw (Repl.ask c)) as (m1 & H1).
    destruct (Repl.turn embed ollama TOP_K raw (Repl.ask c))
      as [c1 [[] | e]]; cbn [fst] in *.
    + destruct (IH c1) as (m2 & H2). rewrite H2, H1.
      cbn [Repl.ask Repl.stdout]. rewrite <- !app_assoc. eexists. reflexivity.
    + rewrite H1. cbn [Repl.ask Repl.stdout]. rewrite <- app_assoc.
      eexists. reflexivity.
    + rewrite H1. cbn [Repl.ask Repl.stdout]. rewrite <- app_assoc.
      eexists. reflexivity.
  - cbn [fst Repl.print Repl.ask Repl.stdout Repl.world].
    rewrite <- app_assoc. eexists. reflexivity.
Qed.

End LoopFacts.

Section SessionInvariant.

Variable embed : pyval -> option faiss.Vec.
Variable ollama : string -> string + string.
Variable TOP_K : Z.

Lemma turn_keeps_aligned (raw : string) (c c1 : Repl.Console)
      (r : result bool) :
  synchronized embed (Repl.world c) ->
  soul_terminated (Repl.world c) = true ->
  Repl.turn embed ollama TOP_K raw c = (c1, r) ->
  match r with
  | Ok _ =>
      synchronized embed (Repl.world c1)
      /\ soul_terminated (Repl.world c1) = true
  | Raise _ =>
      exists w0,
        synchronized embed w0
        /\ index (Repl.world c1) = index w0
        /\ memories (Repl.world c1) = memories w0
        /\ (log_length (Repl.world c1) = log_length w0
            \/ log_length (Repl.world c1) = S (log_length w0))
  end.
Proof.
  intros Hs Ht Hrun.
  destruct (Repl.is_exit (PyStr.strip raw)) eqn:Hexit.
  { unfold Repl.turn in Hrun. rewrite Hexit in Hrun.
    injection Hrun as <- <-. split; [exact Hs | exact Ht]. }
  rewrite (turn_unfold embed ollama TOP_K raw c Hexit) in Hrun.
  cbv zeta in Hrun.
  pose proof (retrieve_keeps_synchronized (PyStr.strip raw) TOP_K Hs) as Hs1.
  pose proof (retrieve_keeps_terminated embed (PyStr.strip raw) TOP_K
                (Repl.world c)) as Ht1.
  rewrite Ht in Ht1.
  set (w1 := fst (retrieve_memories embed (PyStr.strip raw) TOP_K
                    (Repl.world c))) in *.
  destruct (snd (retrieve_memories embed (PyStr.strip raw) TOP_K
                   (Repl.world c))) as [ctx | e].
  - destruct (Repl.build_prompt (PyStr.strip raw) ctx) as [prompt | e].
    + destruct (maybe_append_soul embed (PyStr.strip raw)
                  (Repl.ollama_generate ollama prompt) w1)
        as [w2 [[] | e]] eqn:Hstep; cbn [fst snd] in Hrun;
        injection Hrun as <- <-; cbn [Repl.world].
      * destruct (@append_keeps_synchronized embed _ _ _ _ Hs1 Ht1 Hstep)
          as (Hs2 & Ht2 & _).
        split; [exact Hs2 | exact Ht2].
      * destruct (@append_raises_state embed _ _ _ _ _ Hstep)
          as (Hi & Hm & Hl).
        exists w1. auto.
    + injection Hrun as <- <-. cbn [Repl.world]. exists w1. auto.
  - injection Hrun as <- <-. cbn [Repl.world]. exists w1. auto.
Qed.

Lemma loop_keeps_aligned (keys : list Repl.key) : forall c c' e,
  synchronized embed (Repl.world c) ->
  soul_terminated (Repl.world c) = true ->
  Repl.loop embed ollama TOP_K keys c = (c', e) ->
  match e with
  | Repl.Crashed _ =>
      exists w0,
        synchronized embed w0
        /\ index (Repl.world c') = index w0
        /\ memories (Repl.world c') = memories w0
        /\ (log_length (Repl.world c') = log_length w0
            \/ log_length (Repl.world c') = S (log_length w0))
  | _ =>
      synchronized embed (Repl.world c')
      /\ soul_terminated (Repl.world c') = true
  end.
Proof.
  induction keys as [| [raw |] rest IH]; intros c c' e Hs Ht Hrun;
    cbn [Repl.loop] in Hrun.
  - injection Hrun as <- <-. split; [exact Hs | exact Ht].
  - destruct (Repl.turn embed ollama TOP_K raw (Repl.ask c))
      as [c1 [[] | e1]] eqn:Hturn.
    + destruct (@turn_keeps_aligned raw (Repl.ask c) c1 (Ok true) Hs Ht Hturn)
        as (Hs1 & Ht1).
      eapply IH; [exact Hs1 | exact Ht1 | exact Hrun].
    + injection Hrun as <- <-.
      apply (@turn_keeps_aligned raw (Repl.ask c) c1 (Ok false) Hs Ht Hturn).
    + injection Hrun as <- <-.
      apply (@turn_keeps_aligned raw (Repl.ask c) c1 (Raise e1) Hs Ht Hturn).
  - injection Hrun as <- <-. split; [exact Hs | exact Ht].
Qed.

End SessionInvariant.

(** X15.  The invariant of a session.  Start [main] on a synchronized
    store whose soul file is terminated, with any keyboard input, any
    generator and any [TOP_K].  If the loop ends without an exception
    leaving it (on exit or quit, or on an interrupt at the prompt), or by
    the end of the input, the store is synchronized and its soul file
    terminated.  If an exception leaves the loop, the index and the
    in-memory texts are still those of a synchronized store, and the log
    holds at most one record more than they do. *)
Theorem session_keeps_store_aligned
        (embed : pyval -> option faiss.Vec)
        (ollama : string -> string + string) (TOP_K : Z)
        (soul_path : string) (keys : list Repl.key) (w : World)
        (c' : Repl.Console) (e : Repl.ended) :
  synchronized embed w ->
  soul_terminated w = true ->
  Repl.main embed ollama TOP_K soul_path keys w = (c', e) ->
  match e with
  | Repl.Crashed _ =>
      exists w0,
        synchronized embed w0
        /\ index (Repl.world c') = index w0
        /\ memories (Repl.world c') = memories w0
        /\ (log_length (Repl.world c') = log_length w0
            \/ log_length (Repl.world c') = S (log_length w0))
  | _ =>
      synchronized embed (Repl.world c')
      /\ soul_terminated (Repl.world c') = true
  end.
Proof.
  intros Hs Ht Hrun. unfold Repl.main in Hrun.
  eapply loop_keeps_aligned; [| | exact Hrun]; [exact Hs | exact Ht].
Qed.

(** X16.  A full turn records the exchange.  When the body of the loop
    runs to its end on a line, the memories were retrieved for the
    stripped line, the prompt was composed from them, and exactly one
    memory was added: the entry quoting the stripped line and the reply of
    [ollama_generate] on that prompt.  It was added to the in-memory texts,
    and its line was written at the end of the soul file, after what the
    file ended with and followed by a line terminator; the reply was
    printed. *)
Theorem turn_records_the_exchange
        (embed : pyval -> option faiss.Vec)
        (ollama : string -> string + string) (TOP_K : Z)
        (raw : string) (c c' : Repl.Console) :
  Repl.turn embed ollama TOP_K raw c = (c', Ok true) ->
  let user := PyStr.strip raw in
  exists ctx prompt,
    snd (retrieve_memories embed user TOP_K (Repl.world c)) = Ok ctx
    /\ Repl.build_prompt user ctx = Ok prompt
    /\ memories (Repl.world c')
       = memories (Repl.world c)
         ++ [JStr (entry_text user (Repl.ollama_generate ollama prompt))]
    /\ soul_lines (Repl.world c')
       = write_line (soul_lines (Repl.world c))
           (Py.dumps_entry "text"
              (entry_text user (Repl.ollama_generate ollama prompt)))
    /\ Repl.stdout c'
       = Repl.stdout c
         ++ [((Repl.nl ++ "Ghost: " ++ Repl.ollama_generate ollama prompt
               ++ Repl.nl) ++ Repl.nl)%string].
Proof.
  apply turn_completed.
Qed.

(** X17.  A failed generation is remembered.  When every run of the
    [ollama] process raises with the same message (the executable is
    missing, say), [ollama_generate] does not raise: a full turn stores, as
    a memory, the entry whose reply is the error text
    [[Ghost Error] message]. *)
Theorem generation_failure_is_remembered
        (embed : pyval -> option faiss.Vec)
        (ollama : string -> string + string) (TOP_K : Z)
        (message raw : string) (c c' : Repl.Console) :
  (forall prompt, ollama prompt = inr message) ->
  Repl.turn embed ollama TOP_K raw c = (c', Ok true) ->
  memories (Repl.world c')
  = memories (Repl.world c)
    ++ [JStr (entry_text (PyStr.strip raw)
                         ("[Ghost Error] " ++ message)%string)].
Proof.
  intros Hfail Hrun.
  destruct (@turn_completed embed ollama TOP_K raw c c' Hrun)
    as (ctx & prompt & _ & _ & Hmem & _).
  rewrite Hmem. unfold Repl.ollama_generate. now rewrite Hfail.
Qed.

(** X18.  The reply is printed before the append is tried.  When the
    line is not exit or quit and the retrieval and the composition of the
    prompt succeed, the text of the reply is on the terminal at the end of
    [main], whatever the append does and whatever comes after. *)
Theorem reply_is_printed_before_append
        (embed : pyval -> option faiss.Vec)
        (ollama : string -> string + string) (TOP_K : Z)
        (soul_path raw : string) (rest : list Repl.key) (w : World)
        (ctx : list pyval) (prompt : string) :
  Repl.is_exit (PyStr.strip raw) = false ->
  snd (retrieve_memories embed (PyStr.strip raw) TOP_K w) = Ok ctx ->
  Repl.build_prompt (PyStr.strip raw) ctx = Ok prompt ->
  In ((Repl.nl ++ "Ghost: " ++ Repl.ollama_generate ollama prompt
       ++ Repl.nl) ++ Repl.nl)%string
     (Repl.stdout
        (fst (Repl.main embed ollama TOP_K soul_path
                (Repl.Line raw :: rest) w))).
Proof.
  intros Hexit Hctx Hprompt. unfold Repl.main.
  set (c0 := Repl.print _ _).
  assert (Hw : Repl.world (Repl.ask c0) = w) by reflexivity.
  cbn [Repl.loop].
  pose proof (turn_unfold embed ollama TOP_K raw (Repl.ask c0) Hexit) as Ht.
  cbv zeta in Ht. rewrite Hw, Hctx, Hprompt in Ht.
  set (reply := Repl.ollama_generate ollama prompt) in *.
  set (line := ((Repl.nl ++ "Ghost: " ++ reply ++ Repl.nl)
                ++ Repl.nl)%string) in *.
  assert (Hout : exists c1 r,
             Repl.turn embed ollama TOP_K raw (Repl.ask c0) = (c1, r)
             /\ In line (Repl.stdout c1)).
  { destruct (snd (maybe_append_soul embed (PyStr.strip raw) reply _));
      eexists; eexists; (split; [exact Ht |]);
      cbn [Repl.stdout]; apply in_or_app; right; now left. }
  destruct Hout as (c1 & r & Hturn & Hin). rewrite Hturn.
  destruct r as [[] | e]; cbn [fst]; try exact Hin.
  destruct (loop_stdout embed ollama TOP_K rest c1) as (more & ->).
  apply in_or_app. now left.
Qed.

(** X19.  A memory that is not a string stops the turn.  When the
    retrieval returns a list holding a value that is not a string (the
    soul file can hold one: a line whose [text] is a number), joining the
    memories raises [TypeError]: the loop ends there, before any
    generation, with nothing printed for the turn and nothing appended. *)
Theorem non_string_memory_crashes_turn
        (embed : pyval -> option faiss.Vec)
        (ollama : string -> string + string) (TOP_K : Z)
        (raw : string) (rest : list Repl.key) (c : Repl.Console)
        (ctx : list pyval) (x : pyval) :
  Repl.is_exit (PyStr.strip raw) = false ->
  snd (retrieve_memories embed (PyStr.strip raw) TOP_K (Repl.world c))
  = Ok ctx ->
  In x ctx ->
  (forall s, x <> JStr s) ->
  let c' := fst (Repl.loop embed ollama TOP_K (Repl.Line raw :: rest) c) in
  snd (Repl.loop embed ollama TOP_K (Repl.Line raw :: rest) c)
  = Repl.Crashed TypeError
  /\ Repl.stdout c' = Repl.stdout (Repl.ask c)
  /\ SOUL_FILE (Repl.world c') = SOUL_FILE (Repl.world c)
  /\ index (Repl.world c') = index (Repl.world c)
  /\ memories (Repl.world c') = memories (Repl.world c).
Proof.
  intros Hexit Hctx Hin Hx c'. subst c'.
  assert (Hstrs : Repl.strs ctx = None).
  { clear Hctx. induction ctx as [| y ys IH]; [contradiction |].
    destruct Hin as [-> | Hin].
    - destruct x; try reflexivity. now destruct (Hx s).
    - cbn [Repl.strs]. rewrite (IH Hin). now destruct y. }
  cbn [Repl.loop].
  pose proof (turn_unfold embed ollama TOP_K raw (Repl.ask c) Hexit) as Ht.
  cbv zeta in Ht.
  change (Repl.world (Repl.ask c)) with (Repl.world c) in Ht.
  rewrite Hctx in Ht. unfold Repl.build_prompt, Repl.join in Ht.
  rewrite Hstrs in Ht. rewrite Ht. cbn [fst snd Repl.world Repl.stdout].
  destruct (retrieve_world embed (PyStr.strip raw) TOP_K (Repl.world c))
    as [-> | ->]; repeat split.
Qed.

(* ===================================================================== *)
(** * The further properties on concrete stores and sessions *)
(* ===================================================================== *)

Lemma blank_lines_are_ignored_witness :
  filter (fun l => negb (blank l))
         [Demo.line_sea; Demo.line_raw; Demo.line_blank; Demo.line_obj]
  = filter (fun l => negb (blank l))
           [Demo.line_sea; Demo.line_raw; Demo.line_obj]
  /\ snd (_load_texts RefJson.loads Demo.mixed_soul)
     = snd (_load_texts RefJson.loads DemoRepl.compact_soul).
Proof.
  assert (Hsame :
    filter (fun l => negb (blank l))
           [Demo.line_sea; Demo.line_raw; Demo.line_blank; Demo.line_obj]
    = filter (fun l => negb (blank l))
             [Demo.line_sea; Demo.line_raw; Demo.line_obj])
    by (vm_compute; reflexivity).
  split; [exact Hsame |].
  exact (@blank_lines_are_ignored RefJson.loads Demo.mixed_soul
           DemoRepl.compact_soul _ _ eq_refl eq_refl Hsame).
Defined.

Lemma non_object_line_is_fatal_witness :
  RefJson.loads (PyStr.strip "42") = Ok (JNum "42")
  /\ startup RefJson.loads Demo.embed DemoRepl.number_soul
     = (DemoRepl.number_soul, Raise AttributeError).
Proof.
  assert (Hv : RefJson.loads (PyStr.strip "42") = Ok (JNum "42"))
    by (vm_compute; reflexivity).
  split; [exact Hv |].
  apply (proj2 (@non_object_line_is_fatal RefJson.loads Demo.embed
                  DemoRepl.number_soul [Demo.line_sea] [Demo.line_raw] "42"
                  (JNum "42") [JStr "the sea remembers"]
                  eq_refl
                  ltac:(vm_compute; reflexivity)
                  ltac:(vm_compute; reflexivity)
                  Hv
                  ltac:(intros members; discriminate))).
Defined.

Lemma append_then_reload_witness :
  _load_texts RefJson.loads Demo.two_memories
  = (Demo.two_memories, Ok (memories Demo.two_memories))
  /\ snd (_load_texts RefJson.loads
            (fst (maybe_append_soul Demo.embed "ping" "pong"
                    Demo.two_memories)))
     = Ok (memories Demo.two_memories
           ++ [JStr (entry_text "ping" "pong")]).
Proof.
  assert (Hload : _load_texts RefJson.loads Demo.two_memories
                  = (Demo.two_memories, Ok (memories Demo.two_memories)))
    by (vm_compute; reflexivity).
  split; [exact Hload |].
  rewrite (@append_then_reload RefJson.loads Demo.embed "ping" "pong"
             Demo.two_memories (memories Demo.two_memories) Hload
             ltac:(vm_compute; reflexivity)
             ltac:(vm_compute; reflexivity)).
  reflexivity.
Defined.

Lemma appends_accumulate_in_order_witness :
  snd (appends Demo.embed Demo.turns Demo.two_memories) = Ok tt
  /\ memories (fst (appends Demo.embed Demo.turns Demo.two_memories))
     = memories Demo.two_memories ++ map Repl.memory_of Demo.turns.
Proof.
  split; [vm_compute; reflexivity |].
  apply (@appends_accumulate_in_order Demo.embed Demo.turns Demo.two_memories
           (fst (appends Demo.embed Demo.turns Demo.two_memories))).
  vm_compute. reflexivity.
Defined.

Lemma rebuild_embedding_failure_witness :
  embed_all Demo.embed_short
    [JStr "the sea remembers";
     JStr "a line of more than thirty-two characters, which is not JSON"]
  = None
  /\ snd (startup RefJson.loads Demo.embed_short DemoRepl.long_soul)
     = Raise EmbedError.
Proof.
  assert (Hfail :
    embed_all Demo.embed_short
      [JStr "the sea remembers";
       JStr "a line of more than thirty-two characters, which is not JSON"]
    = None) by (vm_compute; reflexivity).
  split; [exact Hfail |].
  rewrite (@rebuild_embedding_failure RefJson.loads Demo.embed_short
             DemoRepl.long_soul _
             ltac:(vm_compute; reflexivity)
             ltac:(left; reflexivity)
             Hfail).
  reflexivity.
Defined.

Lemma restart_after_rebuild_reuses_witness :
  RefJson.loads (Py.dumps_range 2) = Ok (JArr [JNum "0"; JNum "1"])
  /\ startup RefJson.loads Demo.embed Demo.restart
     = (set_memories (memories Demo.two_memories)
          (set_index (index Demo.two_memories) Demo.restart), Ok tt).
Proof.
  assert (Hdec : RefJson.loads (Py.dumps_range 2)
                 = Ok (JArr [JNum "0"; JNum "1"]))
    by (vm_compute; reflexivity).
  split; [exact Hdec |].
  exact (proj1 (proj2
    (@restart_after_rebuild_reuses RefJson.loads Demo.embed
       (Demo.boot (Data [Demo.line_sea; Demo.line_raw; EmptyString])
                  Absent Absent)
       [JStr "the sea remembers"; JStr "remember the lighthouse"]
       [[17%Q; 1%Q]; [23%Q; 1%Q]]
       (JArr [JNum "0"; JNum "1"])
       (faiss.IndexFlatIP 0) [] []
       ltac:(vm_compute; reflexivity)
       ltac:(discriminate)
       ltac:(left; reflexivity)
       ltac:(vm_compute; reflexivity)
       ltac:(vm_compute; reflexivity)
       ltac:(vm_compute; discriminate)
       ltac:(vm_compute; discriminate)
       Hdec
       ltac:(reflexivity)))).
Defined.

Lemma restart_after_append_rebuilds_witness :
  snd (appends Demo.embed Demo.turns Demo.two_memories) = Ok tt
  /\ List.length
       [JStr "the sea remembers"; JStr "remember the lighthouse";
        JStr "Ghost said: 'pong' in response to: 'ping'";
        JStr "Ghost said: 'a tide' in response to: 'who are you?'"]
     = log_length Demo.two_memories + List.length Demo.turns.
Proof.
  split; [vm_compute; reflexivity |].
  exact (proj1
    (@restart_after_append_rebuilds RefJson.loads Demo.embed
       Demo.two_memories
       (fst (appends Demo.embed Demo.turns Demo.two_memories))
       Demo.turns "[0, 1]" (JArr [JNum "0"; JNum "1"])
       [JStr "the sea remembers"; JStr "remember the lighthouse";
        JStr "Ghost said: 'pong' in response to: 'ping'";
        JStr "Ghost said: 'a tide' in response to: 'who are you?'"]
       (faiss.IndexFlatIP 0) [] []
       ltac:(vm_compute; reflexivity)
       ltac:(vm_compute; reflexivity)
       ltac:(vm_compute; reflexivity)
       ltac:(vm_compute; reflexivity)
       ltac:(vm_compute; reflexivity)
       ltac:(discriminate)
       ltac:(vm_compute; reflexivity)
       ltac:(vm_compute; reflexivity))).
Defined.

Lemma first_append_on_empty_store_fails_witness :
  Demo.embed (JStr (entry_text "ping" "pong")) = Some [41%Q; 1%Q]
  /\ snd (maybe_append_soul Demo.embed "ping" "pong" Demo.fresh)
     = Raise AssertionError.
Proof.
  assert (Hv : Demo.embed (JStr (entry_text "ping" "pong"))
               = Some [41%Q; 1%Q]) by (vm_compute; reflexivity).
  split; [exact Hv |].
  exact (proj1 (proj2 (proj2
    (@first_append_on_empty_store_fails RefJson.loads Demo.embed
       (Demo.boot Absent Absent Absent) "ping" "pong" [41%Q; 1%Q]
       ltac:(reflexivity)
       ltac:(left; reflexivity)
       Hv
       ltac:(discriminate))))).
Defined.

Lemma retrieve_returns_memories_witness :
  snd (retrieve_memories Demo.embed "anything" 3 Demo.two_memories)
  = Ok [JStr "remember the lighthouse"; JStr "the sea remembers";
        JStr "remember the lighthouse"]
  /\ forall x,
       In x [JStr "remember the lighthouse"; JStr "the sea remembers";
             JStr "remember the lighthouse"] ->
       In x (memories Demo.two_memories).
Proof.
  split; [vm_compute; reflexivity |].
  apply (@retrieve_returns_memories Demo.embed "anything" 3%Z
           Demo.two_memories
           (fst (retrieve_memories Demo.embed "anything" 3 Demo.two_memories))).
  vm_compute. reflexivity.
Defined.

Lemma retrieve_top_k_witness :
  Demo.embed (JStr "anything") = Some [8%Q; 1%Q]
  /\ exists labels,
       faiss.search (index Demo.two_memories) [8%Q; 1%Q] 2 = Ok labels
       /\ NoDup labels
       /\ List.length labels = Z.to_nat 2
       /\ Forall (fun i =>
                    (0 <= i
                     < Z.of_nat (List.length (memories Demo.two_memories)))%Z)
                 labels
       /\ snd (retrieve_memories Demo.embed "anything" 2 Demo.two_memories)
          = Ok (map (fun i => nth (Z.to_nat i) (memories Demo.two_memories)
                                  JNull) labels).
Proof.
  assert (Hq : Demo.embed (JStr "anything") = Some [8%Q; 1%Q])
    by (vm_compute; reflexivity).
  split; [exact Hq |].
  apply (@retrieve_top_k Demo.embed "anything" 2%Z Demo.two_memories
           [8%Q; 1%Q]).
  - vm_compute. reflexivity.
  - exact Hq.
  - vm_compute. reflexivity.
  - vm_compute. split; [reflexivity | discriminate].
Defined.

Lemma retrieve_pads_with_last_memory_witness :
  (Z.of_nat (List.length (memories Demo.two_memories)) < 3)%Z
  /\ exists labels,
       Permutation labels (map Z.of_nat (seq 0 2))
       /\ faiss.search (index Demo.two_memories) [8%Q; 1%Q] 3
          = Ok (labels ++ repeat (-1)%Z (Z.to_nat 3 - 2))
       /\ snd (retrieve_memories Demo.embed "anything" 3 Demo.two_memories)
          = Ok (map (fun i => nth (Z.to_nat i) (memories Demo.two_memories)
                                  JNull) labels
                ++ repeat (last (memories Demo.two_memories) JNull)
                          (Z.to_nat 3 - 2)).
Proof.
  assert (Hk : (Z.of_nat (List.length (memories Demo.two_memories)) < 3)%Z)
    by (vm_compute; reflexivity).
  split; [exact Hk |].
  apply (@retrieve_pads_with_last_memory Demo.embed "anything" 3%Z
           Demo.two_memories [8%Q; 1%Q]).
  - vm_compute. discriminate.
  - vm_compute. reflexivity.
  - vm_compute. reflexivity.
  - vm_compute. reflexivity.
  - exact Hk.
Defined.

Lemma session_keeps_store_aligned_witness :
  snd (Repl.main Demo.embed DemoRepl.ollama_up 2 "soul" DemoRepl.keys
         Demo.two_memories) = Repl.Exited
  /\ soul_terminated Demo.two_memories = true
  /\ synchronized Demo.embed
       (Repl.world
          (fst (Repl.main Demo.embed DemoRepl.ollama_up 2 "soul" DemoRepl.keys
                  Demo.two_memories)))
  /\ soul_terminated
       (Repl.world
          (fst (Repl.main Demo.embed DemoRepl.ollama_up 2 "soul" DemoRepl.keys
                  Demo.two_memories))) = true.
Proof.
  split; [vm_compute; reflexivity |].
  split; [vm_compute; reflexivity |].
  exact (@session_keeps_store_aligned Demo.embed DemoRepl.ollama_up 2%Z
           "soul" DemoRepl.keys Demo.two_memories
           (fst (Repl.main Demo.embed DemoRepl.ollama_up 2 "soul"
                   DemoRepl.keys Demo.two_memories))
           Repl.Exited
           two_memories_synchronized
           ltac:(vm_compute; reflexivity)
           ltac:(vm_compute; reflexivity)).
Defined.

Lemma turn_records_the_exchange_witness :
  snd (Repl.turn Demo.embed DemoRepl.ollama_up 2 " ping "
         (Repl.mkConsole Demo.two_memories [])) = Ok true
  /\ exists ctx prompt,
       snd (retrieve_memories Demo.embed (PyStr.strip " ping ") 2
              Demo.two_memories) = Ok ctx
       /\ Repl.build_prompt (PyStr.strip " ping ") ctx = Ok prompt
       /\ memories
            (Repl.world
               (fst (Repl.turn Demo.embed DemoRepl.ollama_up 2 " ping "
                       (Repl.mkConsole Demo.two_memories []))))
          = memories Demo.two_memories
            ++ [JStr (entry_text (PyStr.strip " ping ")
                        (Repl.ollama_generate DemoRepl.ollama_up prompt))]
       /\ soul_lines
            (Repl.world
               (fst (Repl.turn Demo.embed DemoRepl.ollama_up 2 " ping "
                       (Repl.mkConsole Demo.two_memories []))))
          = write_line (soul_lines Demo.two_memories)
              (Py.dumps_entry "text"
                 (entry_text (PyStr.strip " ping ")
                    (Repl.ollama_generate DemoRepl.ollama_up prompt)))
       /\ Repl.stdout
            (fst (Repl.turn Demo.embed DemoRepl.ollama_up 2 " ping "
                    (Repl.mkConsole Demo.two_memories [])))
          = [] ++ [((Repl.nl ++ "Ghost: "
                     ++ Repl.ollama_generate DemoRepl.ollama_up prompt
                     ++ Repl.nl) ++ Repl.nl)%string].
Proof.
  split; [vm_compute; reflexivity |].
  apply (@turn_records_the_exchange Demo.embed DemoRepl.ollama_up 2%Z
           " ping " (Repl.mkConsole Demo.two_memories [])
           (fst (Repl.turn Demo.embed DemoRepl.ollama_up 2 " ping "
                   (Repl.mkConsole Demo.two_memories [])))).
  vm_compute. reflexivity.
Defined.

Lemma generation_failure_is_remembered_witness :
  memories
    (Repl.world
       (fst (Repl.turn Demo.embed DemoRepl.ollama_down 2 "ping"
               (Repl.mkConsole Demo.two_memories []))))
  = memories Demo.two_memories
    ++ [JStr (entry_text (PyStr.strip "ping")
                         ("[Ghost Error] " ++ "timed out")%string)].
Proof.
  apply (@generation_failure_is_remembered Demo.embed DemoRepl.ollama_down
           2%Z "timed out" "ping" (Repl.mkConsole Demo.two_memories [])
           (fst (Repl.turn Demo.embed DemoRepl.ollama_down 2 "ping"
                   (Repl.mkConsole Demo.two_memories [])))).
  - intros prompt. reflexivity.
  - vm_compute. reflexivity.
Defined.

Lemma reply_is_printed_before_append_witness :
  snd (Repl.main Demo.embed DemoRepl.ollama_down 1 "soul"
         [Repl.Line "ping"; Repl.Line "exit"] Demo.fresh)
  = Repl.Crashed AssertionError
  /\ exists prompt,
       Repl.build_prompt (PyStr.strip "ping") [] = Ok prompt
       /\ In ((Repl.nl ++ "Ghost: "
               ++ Repl.ollama_generate DemoRepl.ollama_down prompt
               ++ Repl.nl) ++ Repl.nl)%string
             (Repl.stdout
                (fst (Repl.main Demo.embed DemoRepl.ollama_down 1 "soul"
                        [Repl.Line "ping"; Repl.Line "exit"] Demo.fresh))).
Proof.
  split; [vm_compute; reflexivity |].
  eexists. split; [reflexivity |].
  apply (@reply_is_printed_before_append Demo.embed DemoRepl.ollama_down
           1%Z "soul" "ping" [Repl.Line "exit"] Demo.fresh []).
  - vm_compute. reflexivity.
  - vm_compute. reflexivity.
  - reflexivity.
Defined.

Lemma non_string_memory_crashes_turn_witness :
  snd (retrieve_memories DemoRepl.embed_any (PyStr.strip "ping") 2
         DemoRepl.five_store)
  = Ok [JStr "the sea remembers"; JNum "5"]
  /\ snd (Repl.loop DemoRepl.embed_any DemoRepl.ollama_up 2
            [Repl.Line "ping"; Repl.Line "exit"]
            (Repl.mkConsole DemoRepl.five_store []))
     = Repl.Crashed TypeError.
Proof.
  assert (Hctx :
    snd (retrieve_memories DemoRepl.embed_any (PyStr.strip "ping") 2
           DemoRepl.five_store)
    = Ok [JStr "the sea remembers"; JNum "5"]) by (vm_compute; reflexivity).
  split; [exact Hctx |].
  exact (proj1
    (@non_string_memory_crashes_turn DemoRepl.embed_any DemoRepl.ollama_up
       2%Z "ping" [Repl.Line "exit"] (Repl.mkConsole DemoRepl.five_store [])
       [JStr "the sea remembers"; JNum "5"] (JNum "5")
       ltac:(vm_compute; reflexivity)
       Hctx
       ltac:(right; left; reflexivity)
       ltac:(intros s; discriminate))).
Defined.
